(** * The Odoo proxy client (src/odxproxy-client.ts)

    A shallow embedding of [OdooProxyApiClient]: its constructor, the factory
    [createOdooProxyClient] and the dispatch method [forwardToOdoo], with the
    platform pieces the method talks to (the transport function, the
    [Response] object, [JSON.parse] and [JSON.stringify]) kept as explicit
    inputs, and with every observable effect recorded in a trace. *)

From Stdlib Require Import ZArith Ascii List Lia.
From Stdlib Require String.
From Stdlib Require Import Floats.SpecFloat.
From stdpp Require Import base option gmap strings list pretty.
Import ListNotations.
Local Open Scope Z_scope.

(** ** JSON values

    What [JSON.parse] can return: primitives, arrays, and objects keyed by
    property name.  A number is an IEEE 754 binary64 value; a string is a
    sequence of characters, each standing for one code unit. *)

Definition number : Type := spec_float.

(** The binary64 value of an integer literal. *)
Definition number_of_Z (n : Z) : number := binary_normalize 53 1024 n 0 false.

#[warnings="-register-all"]
Inductive json : Type :=
  | JNull
  | JBool (b : bool)
  | JNum (n : number)
  | JStr (s : string)
  | JArr (items : list json)
  | JObj (props : gmap string json).

(** [typeof v === 'object']: true of objects, arrays and null. *)
Definition typeof_object (v : json) : bool :=
  match v with
  | JNull | JArr _ | JObj _ => true
  | JBool _ | JNum _ | JStr _ => false
  end.

(** [v === null]. *)
Definition is_null (v : json) : bool :=
  match v with JNull => true | _ => false end.

(** [v[k]] for a non-index key [k] on a parsed value that is not null: the
    own property of an object, [undefined] (here [None]) on anything else. *)
Definition get_prop (v : json) (k : string) : option json :=
  match v with
  | JObj props => props !! k
  | _ => None
  end.

(** [k in v], for a parsed object or array and a non-index key [k]. *)
Definition has_key (k : string) (v : json) : bool :=
  bool_decide (is_Some (get_prop v k)).

(** [x !== '2.0'] where [x] is the outcome of a property read. *)
Definition not_strictly_2_0 (x : option json) : bool :=
  match x with
  | Some (JStr s) => negb (String.eqb s "2.0")
  | _ => true
  end.

(** ** Strings *)

(** Truthiness of a string: [!s] holds of the empty string only. *)
Definition falsy_string (s : string) : bool :=
  match s with
  | EmptyString => true
  | String _ _ => false
  end.

(** [!x] for a property that is a string when present. *)
Definition falsy (x : option string) : bool :=
  match x with
  | None => true
  | Some s => falsy_string s
  end.

(** [s.replace(/\/$/, '')]: the pattern matches one slash standing at the
    very end of the input, and the first (only) match is removed. *)
Fixpoint replace_trailing_slash (s : string) : string :=
  match s with
  | EmptyString => EmptyString
  | String c EmptyString => if Ascii.eqb c "/" then EmptyString else s
  | String c rest => String c (replace_trailing_slash rest)
  end.

(** [s] ends with a slash. *)
Fixpoint ends_with_slash (s : string) : bool :=
  match s with
  | EmptyString => false
  | String c EmptyString => Ascii.eqb c "/"
  | String _ rest => ends_with_slash rest
  end.

(** [x ?? d]. *)
Definition nullish_or (x : option string) (d : string) : string :=
  match x with
  | Some s => s
  | None => d
  end.

(** ** Request and response shapes *)

Inductive OdooAction : Type :=
  | search_count | search | read | fields_get | search_read
  | create | write | unlink | call_method.

(** A property declared [p?: T | null]. *)
Inductive optional (A : Type) : Type :=
  | Undefined
  | Null
  | Value (a : A).
Arguments Undefined {A}.
Arguments Null {A}.
Arguments Value {A} a.

Record OdooInstanceConfig : Type := {
  url : string;
  user_id : Z;
  db : string;
  api_key : string;
}.

(** A value of type [any]: JSON data, or any other value (a BigInt, a
    function, a symbol, an object that holds itself, an object with a
    [toJSON] method).  The client never looks inside such a value, so the
    ones that are not JSON data are told apart by a label. *)
Inductive any : Type :=
  | AnyJson (v : json)
  | AnyOther (label : positive).

Record OdooProxyRequest : Type := {
  id : string;
  action : OdooAction;
  model_id : string;
  keyword : optional (gmap string any);
  params : optional (list any);
  fn_name : optional string;
  odoo_instance : OdooInstanceConfig;
}.

(** ** Thrown values, responses and errors *)

(** The part of a [Response] the client reads, over the type [T] of the
    values a promise can be rejected with.  [text] is what awaiting
    [response.text()] yields: a rejection or the body. *)
Record Response_of (T : Type) : Type := {
  status : Z;
  statusText : string;
  text : T + string;
}.
Arguments status {T} _.
Arguments statusText {T} _.
Arguments text {T} _.

(** [js_thrown]: a value thrown by platform code (the transport,
    [Response.text], [JSON.stringify]).  A promise can be rejected with any
    value, [undefined] included (a bare [reject()]).  A handler of
    [forwardToOdoo] reads the [message] property of the value it caught and
    prints it in a template literal.  On [undefined] and [null] that read
    throws.  On any other value it either yields a message, kept here as the
    literal prints it ([None] when the property is [undefined] or [null]),
    or it throws in its turn: the property is an accessor that throws, or a
    value that cannot be printed (a symbol, an object whose [toString]
    throws); [js_throwing x] is such a value, [x] being what is thrown.

    [exn]: the values a call can end up throwing, by class. *)
#[warnings="-register-all"]
Inductive js_thrown : Type :=
  | js_undefined
  | js_null
  | js_value (message : option string)
  | js_throwing (x : exn)
with exn : Type :=
  | Foreign (e : js_thrown)
  | SyntaxError (message : string)
  | TypeError (message : string)
  | Error (message : string)
  | OdooProxyApiHttpError (message : string) (status : option Z)
      (statusText : option string)
      (response : option (Response_of js_thrown))
  | OdooProxyApiFormatError (message : string).

Definition Response : Type := Response_of js_thrown.

(** The second argument of the transport call.  [body] is what
    [JSON.stringify] returned: a text, or [undefined] (here [None]) for a
    request whose [toJSON] yields nothing to print. *)
Record RequestInit : Type := {
  method : string;
  headers : list (string * string);
  body : option string;
}.

(** The transport, [typeof fetch]: awaiting a call either throws or yields
    a [Response].  The statements about one call hold for every such
    function, so for whatever the transport answers to that call. *)
Definition fetch_fn : Type := string -> RequestInit -> js_thrown + Response.

(** [e] is [undefined] or [null]. *)
Definition is_nullish (e : js_thrown) : bool :=
  match e with
  | js_undefined | js_null => true
  | js_value _ | js_throwing _ => false
  end.

(** [new OdooProxyApiHttpError(message, response)]; [status] and
    [statusText] are read through [response?.]. *)
Definition new_OdooProxyApiHttpError (message : string)
    (response : option Response) : exn :=
  OdooProxyApiHttpError message (status <$> response)
    (statusText <$> response) response.

(** ** Effects

    A call of [forwardToOdoo] reads the fields of the client it is invoked
    on and talks to the platform.  The world threaded through a call holds
    that client object and the trace of platform operations performed so
    far, oldest first. *)

Inductive event : Type :=
  | EvFetch (url : string) (init : RequestInit)
  | EvText (r : Response)
  | EvParse (s : string).

(** The three private fields of the class. *)
Record OdooProxyApiClient : Type := {
  baseUrl : string;
  apiKey : string;
  fetchFn : fetch_fn;
}.

Record World : Type := {
  this : OdooProxyApiClient;
  trace : list event;
}.

Inductive outcome (A : Type) : Type :=
  | Returned (a : A)
  | Thrown (e : exn).
Arguments Returned {A} a.
Arguments Thrown {A} e.

Definition M (A : Type) : Type := World -> outcome A * World.

Definition ret {A : Type} (a : A) : M A := fun w => (Returned a, w).

Definition throw {A : Type} (e : exn) : M A := fun w => (Thrown e, w).

Definition bind {A B : Type} (c : M A) (k : A -> M B) : M B :=
  fun w =>
    match c w with
    | (Returned a, w') => k a w'
    | (Thrown e, w') => (Thrown e, w')
    end.

(** [try { c } catch (e) { handler e }]. *)
Definition try_catch {A : Type} (c : M A) (handler : exn -> M A) : M A :=
  fun w =>
    match c w with
    | (Returned a, w') => (Returned a, w')
    | (Thrown e, w') => handler e w'
    end.

Declare Scope js_scope.
Delimit Scope js_scope with js.
Notation "x <- c ;; k" := (bind c (fun x => k))
  (at level 100, c at next level, right associativity) : js_scope.
Local Open Scope js_scope.

(** Reading [this]. *)
Definition get_this : M OdooProxyApiClient :=
  fun w => (Returned (this w), w).

Definition log (e : event) : M unit :=
  fun w => (Returned tt, {| this := this w; trace := trace w ++ [e] |}).

(** Lifting a platform answer: a rejection becomes a thrown value. *)
Definition await {A : Type} (r : js_thrown + A) : M A :=
  match r with
  | inl e => throw (Foreign e)
  | inr a => ret a
  end.

(** [await f(url, init)]. *)
Definition call_fetch (f : fetch_fn) (url : string) (init : RequestInit)
    : M Response :=
  _ <- log (EvFetch url init) ;;
  await (f url init).

(** [await response.text()]. *)
Definition read_text (r : Response) : M string :=
  _ <- log (EvText r) ;;
  await (text r).

(** The message of the [TypeError] raised by reading [message] on
    [undefined] or on [null].  The wording is the engine's (V8's here);
    nothing below depends on it. *)
Definition nullish_read_message (e : js_thrown) : string :=
  match e with
  | js_null => "Cannot read properties of null (reading 'message')"
  | _ => "Cannot read properties of undefined (reading 'message')"
  end.

(** [e.message] for a caught value [e], read and printed by the template
    literal of a handler: the read throws a [TypeError] on [undefined] and
    [null], and on a value whose message cannot be read or printed what that
    throws goes out of the handler.  The errors the call builds itself and
    the parser's [SyntaxError] have a plain string for message. *)
Definition get_message (e : exn) : M (option string) :=
  match e with
  | Foreign js_undefined =>
      throw (TypeError (nullish_read_message js_undefined))
  | Foreign js_null => throw (TypeError (nullish_read_message js_null))
  | Foreign (js_value m) => ret m
  | Foreign (js_throwing x) => throw x
  | SyntaxError m => ret (Some m)
  | TypeError m => ret (Some m)
  | Error m => ret (Some m)
  | OdooProxyApiHttpError m _ _ _ => ret (Some m)
  | OdooProxyApiFormatError m => ret (Some m)
  end.

(** ** Construction *)

Module OdooApiClientConfig.

(** The configuration object.  A property that is missing at run time
    reads as [undefined], here [None]. *)
Record t : Type := {
  baseUrl : option string;
  apiKey : option string;
  fetch : option fetch_fn;
}.

End OdooApiClientConfig.

(** [new OdooProxyApiClient(config)], in an environment whose
    [globalThis.fetch] is [globalThis_fetch].  The last branch is not
    reached: once the first test has passed both properties are strings. *)
Definition constructor (globalThis_fetch : option fetch_fn)
    (config : OdooApiClientConfig.t) : exn + OdooProxyApiClient :=
  if falsy (OdooApiClientConfig.baseUrl config)
     || falsy (OdooApiClientConfig.apiKey config)
  then inl (Error
    "OdooProxyApiClient requires baseUrl and apiKey in configuration.")
  else
    match OdooApiClientConfig.baseUrl config,
          OdooApiClientConfig.apiKey config with
    | Some b, Some k =>
        let this_fetchFn :=
          match OdooApiClientConfig.fetch config with
          | Some f => Some f
          | None => globalThis_fetch
          end in
        match this_fetchFn with
        | None => inl (Error
            "Fetch API is not available. Please provide a polyfill or ensure you are in a supported environment.")
        | Some f =>
            inr {| baseUrl := replace_trailing_slash b;
                   apiKey := k;
                   fetchFn := f |}
        end
    | _, _ => inl (TypeError (nullish_read_message js_undefined))
    end.

Definition createOdooProxyClient (globalThis_fetch : option fetch_fn)
    (config : OdooApiClientConfig.t) : exn + OdooProxyApiClient :=
  constructor globalThis_fetch config.

(** ** Dispatch *)

Definition expectedStatuses : list Z := [200; 400; 401; 500; 502; 504].

(** The line feed of the template literal. *)
Definition LF : string := String (ascii_of_nat 10) EmptyString.

Section Dispatch.

(** [JSON.stringify] on a request: it throws (on a BigInt, on an object
    that holds itself, when a [toJSON] throws) or returns what it printed.
    [JSON.parse]: [inl m] is a thrown [SyntaxError] with message [m]. *)
Variable JSON_stringify : OdooProxyRequest -> js_thrown + option string.
Variable JSON_parse : string -> string + json.

Definition call_JSON_parse (s : string) : M json :=
  _ <- log (EvParse s) ;;
  match JSON_parse s with
  | inl m => throw (SyntaxError m)
  | inr v => ret v
  end.

Definition forwardToOdoo (request : OdooProxyRequest) : M json :=
  this <- get_this ;;
  let url := baseUrl this +:+ "/api/odoo" in
  let headers :=
    [ ("Content-Type", "application/json");
      ("Accept", "application/json");
      ("apikey", apiKey this) ] in
  response <-
    try_catch
      (body <- await (JSON_stringify request) ;;
       call_fetch (fetchFn this) url
         {| method := "POST";
            headers := headers;
            body := body |})
      (fun networkError =>
         m <- get_message networkError ;;
         throw (new_OdooProxyApiHttpError
           ("Network error calling Odoo Proxy API: "
              +:+ nullish_or m "Unknown network error")
           None)) ;;
  if negb (bool_decide (status response ∈ expectedStatuses)) then
    let responseBodyText :=
      "Status: " +:+ pretty (status response) +:+ " "
        +:+ statusText response in
    responseBodyText <-
      try_catch
        (text <- read_text response ;;
         ret (if negb (falsy_string text)
              then responseBodyText +:+ LF +:+ "Response Body: "
                     +:+ String.substring 0 200 text
                     +:+ (if (200 <? String.length text)%nat
                          then "..." else EmptyString)
              else responseBodyText))
        (fun _ => ret responseBodyText) ;;
    throw (new_OdooProxyApiHttpError
      ("Unexpected HTTP response from Odoo Proxy API. "
         +:+ responseBodyText)
      (Some response))
  else
    responseData <-
      try_catch
        (text <- read_text response ;;
         if falsy_string text
         then throw (OdooProxyApiFormatError "Received empty response body")
         else call_JSON_parse text)
        (fun parseError =>
           m <- get_message parseError ;;
           throw (OdooProxyApiFormatError
             ("Failed to parse JSON response from Odoo Proxy API: "
                +:+ nullish_or m "Unknown parsing error"))) ;;
    if negb (typeof_object responseData)
       || is_null responseData
       || not_strictly_2_0 (get_prop responseData "jsonrpc")
       || negb (has_key "id" responseData)
    then throw (OdooProxyApiFormatError
      "Invalid JSON-RPC 2.0 response format received from Odoo Proxy API.")
    else ret responseData.

End Dispatch.

(** ** A JSON reader for concrete bodies

    An executable reader that stands in for the platform's [JSON.parse] when
    a statement is run on a concrete body.  It reads null, true, false,
    integer literals, strings with the simple escapes, arrays and objects (a
    repeated key keeps its last value), and rejects everything else; the
    statements below hold for any parser and do not depend on it. *)

Definition DQ : ascii := ascii_of_nat 34.
Definition BACKSLASH : ascii := ascii_of_nat 92.

(** Writing a body with apostrophes where JSON has double quotes. *)
Fixpoint dq (s : string) : string :=
  match s with
  | EmptyString => EmptyString
  | String c rest =>
      String (if Ascii.eqb c "'" then DQ else c) (dq rest)
  end.

Module Reader.

Definition is_ws (c : ascii) : bool :=
  Ascii.eqb c " " || Ascii.eqb c (ascii_of_nat 9)
  || Ascii.eqb c (ascii_of_nat 10) || Ascii.eqb c (ascii_of_nat 13).

Fixpoint skip_ws (s : string) : string :=
  match s with
  | String c rest => if is_ws c then skip_ws rest else s
  | EmptyString => s
  end.

Definition digit (c : ascii) : option Z :=
  let n := Z.of_nat (nat_of_ascii c) in
  if (48 <=? n) && (n <=? 57) then Some (n - 48) else None.

(** Digits after the first one: the value so far and what follows. *)
Fixpoint digits (acc : Z) (s : string) : Z * string :=
  match s with
  | String c rest =>
      match digit c with
      | Some d => digits (10 * acc + d) rest
      | None => (acc, s)
      end
  | EmptyString => (acc, s)
  end.

(** A non-negative integer with no leading zero, not followed by a
    fraction or an exponent. *)
Definition natural (s : string) : option (Z * string) :=
  match s with
  | String c rest =>
      match digit c with
      | Some d =>
          let '(n, rest') := if d =? 0 then (0, rest) else digits d rest in
          match rest' with
          | String c' _ =>
              if Ascii.eqb c' "." || Ascii.eqb c' "e" || Ascii.eqb c' "E"
                 || bool_decide (is_Some (digit c'))
              then None else Some (n, rest')
          | EmptyString => Some (n, rest')
          end
      | None => None
      end
  | EmptyString => None
  end.

Definition unescape (c : ascii) : option ascii :=
  if Ascii.eqb c DQ then Some DQ
  else if Ascii.eqb c BACKSLASH then Some BACKSLASH
  else if Ascii.eqb c "/" then Some "/"%char
  else if Ascii.eqb c "n" then Some (ascii_of_nat 10)
  else if Ascii.eqb c "t" then Some (ascii_of_nat 9)
  else if Ascii.eqb c "r" then Some (ascii_of_nat 13)
  else None.

(** The characters of a string literal after its opening quote. *)
Fixpoint chars (s : string) : option (string * string) :=
  match s with
  | EmptyString => None
  | String c rest =>
      if Ascii.eqb c DQ then Some (EmptyString, rest)
      else if Ascii.eqb c BACKSLASH then
        match rest with
        | String e rest' =>
            match unescape e, chars rest' with
            | Some c', Some (body, tail) => Some (String c' body, tail)
            | _, _ => None
            end
        | EmptyString => None
        end
      else if (Z.of_nat (nat_of_ascii c) <? 32) then None
      else
        match chars rest with
        | Some (body, tail) => Some (String c body, tail)
        | None => None
        end
  end.

Definition keyword_at (kw : string) (s : string) : option string :=
  if String.prefix kw s
  then Some (String.substring (String.length kw)
               (String.length s - String.length kw) s)
  else None.

Fixpoint value (fuel : nat) (s : string) : option (json * string) :=
  match fuel with
  | O => None
  | S fuel' =>
      let elements :=
        fix elements (k : nat) (s : string) (acc : list json)
            : option (list json * string) :=
          match k with
          | O => None
          | S k' =>
              match value fuel' s with
              | Some (v, rest) =>
                  match skip_ws rest with
                  | String c rest' =>
                      if Ascii.eqb c "," then elements k' rest' (acc ++ [v])
                      else if Ascii.eqb c "]" then Some (acc ++ [v], rest')
                      else None
                  | EmptyString => None
                  end
              | None => None
              end
          end in
      let members :=
        fix members (k : nat) (s : string) (acc : gmap string json)
            : option (gmap string json * string) :=
          match k with
          | O => None
          | S k' =>
              match skip_ws s with
              | String q rest =>
                  if Ascii.eqb q DQ then
                    match chars rest with
                    | Some (key, rest1) =>
                        match skip_ws rest1 with
                        | String colon rest2 =>
                            if Ascii.eqb colon ":" then
                              match value fuel' rest2 with
                              | Some (v, rest3) =>
                                  match skip_ws rest3 with
                                  | String c rest4 =>
                                      if Ascii.eqb c ","
                                      then members k' rest4 (<[key:=v]> acc)
                                      else if Ascii.eqb c "}"
                                      then Some (<[key:=v]> acc, rest4)
                                      else None
                                  | EmptyString => None
                                  end
                              | None => None
                              end
                            else None
                        | EmptyString => None
                        end
                    | None => None
                    end
                  else None
              | EmptyString => None
              end
          end in
      match skip_ws s with
      | EmptyString => None
      | String c rest =>
          if Ascii.eqb c "n" then
            (fun r => (JNull, r)) <$> keyword_at "ull" rest
          else if Ascii.eqb c "t" then
            (fun r => (JBool true, r)) <$> keyword_at "rue" rest
          else if Ascii.eqb c "f" then
            (fun r => (JBool false, r)) <$> keyword_at "alse" rest
          else if Ascii.eqb c DQ then
            (fun '(str, r) => (JStr str, r)) <$> chars rest
          else if Ascii.eqb c "-" then
            (fun '(n, r) => (JNum (SFopp (number_of_Z n)), r)) <$> natural rest
          else if Ascii.eqb c "[" then
            match skip_ws rest with
            | String c' rest' =>
                if Ascii.eqb c' "]" then Some (JArr [], rest')
                else (fun '(l, r) => (JArr l, r))
                       <$> elements fuel' rest []
            | EmptyString => None
            end
          else if Ascii.eqb c "{" then
            match skip_ws rest with
            | String c' rest' =>
                if Ascii.eqb c' "}" then Some (JObj ∅, rest')
                else (fun '(m, r) => (JObj m, r))
                       <$> members fuel' rest ∅
            | EmptyString => None
            end
          else (fun '(n, r) => (JNum (number_of_Z n), r))
       <$> natural (String c rest)
      end
  end.

(** The whole text must be one value, white space apart. *)
Definition parse (s : string) : string + json :=
  match skip_ws s with
  | EmptyString => inl "Unexpected end of JSON input"
  | _ =>
      match value (S (String.length s)) s with
      | Some (v, rest) =>
          match skip_ws rest with
          | EmptyString => inr v
          | _ => inl "Unexpected non-whitespace character after JSON"
          end
      | None => inl "Unexpected token in JSON"
      end
  end.

End Reader.

(** ** What the specification names

    The request the dispatch operation is to send, and the envelope it is to
    accept, written from the specification's words. *)

(** The endpoint root followed by the dispatch path. *)
Definition target_url (c : OdooProxyApiClient) : string :=
  baseUrl c +:+ "/api/odoo".

(** POST, the three headers, and the given body. *)
Definition post_init (c : OdooProxyApiClient) (payload : option string)
    : RequestInit :=
  {| method := "POST";
     headers := [ ("Content-Type", "application/json");
                  ("Accept", "application/json");
                  ("apikey", apiKey c) ];
     body := payload |}.

(** A structurally valid envelope: an object whose [jsonrpc] is the string
    2.0 and which has an [id] key. *)
Definition valid_envelope (v : json) : Prop :=
  exists props, v = JObj props
    /\ props !! "jsonrpc" = Some (JStr "2.0")
    /\ is_Some (props !! "id").

(** The four ways a parsed value fails to be an envelope. *)
Definition invalid_envelope (v : json) : Prop :=
  (forall props, v <> JObj props)
  \/ v = JNull
  \/ get_prop v "jsonrpc" <> Some (JStr "2.0")
  \/ get_prop v "id" = None.

(** The world after the operations [evs] have been added to the trace. *)
Definition after (w : World) (evs : list event) : World :=
  {| this := this w; trace := trace w ++ evs |}.

(** The events of a trace that are transport calls. *)
Definition is_fetch (e : event) : bool :=
  match e with EvFetch _ _ => true | _ => false end.

Definition is_parse (e : event) : bool :=
  match e with EvParse _ => true | _ => false end.

(** The diagnostic text of an out-of-contract response: status code and
    status text, then at most 200 characters of a non-empty body that could
    be read, with an ellipsis when the body is longer. *)
Definition diagnostics (r : Response) : string :=
  "Status: " +:+ pretty (status r) +:+ " " +:+ statusText r
  +:+ match text r with
      | inr t =>
          if falsy_string t then EmptyString
          else LF +:+ "Response Body: " +:+ String.substring 0 200 t
               +:+ (if (200 <? String.length t)%nat then "..."
                    else EmptyString)
      | inl _ => EmptyString
      end.

(** The dispatcher run over a sequence of requests, each failure being
    left to the caller. *)
Fixpoint lifetime (call : OdooProxyRequest -> M json)
    (requests : list OdooProxyRequest) (w : World) : World :=
  match requests with
  | [] => w
  | request :: rest => lifetime call rest (snd (call request w))
  end.

(** The test of the validation step, as the source writes it. *)
Definition rejected (v : json) : bool :=
  negb (typeof_object v) || is_null v
  || not_strictly_2_0 (get_prop v "jsonrpc")
  || negb (has_key "id" v).

(** The declared response type [JsonRpcResponse]: [jsonrpc] is the string
    2.0, [id] is a string or null, [result] is anything, and [error], when
    present and not null, is a [JsonRpcError]: an object with a numeric
    [code] and a string [message]. *)
Definition is_JsonRpcError (v : json) : bool :=
  match v with
  | JObj e =>
      match e !! "code", e !! "message" with
      | Some (JNum _), Some (JStr _) => true
      | _, _ => false
      end
  | _ => false
  end.

Definition conforms_JsonRpcResponse (v : json) : bool :=
  match v with
  | JObj props =>
      match props !! "jsonrpc" with
      | Some (JStr s) => String.eqb s "2.0"
      | _ => false
      end
      && match props !! "id" with
         | Some (JStr _) | Some JNull => true
         | _ => false
         end
      && match props !! "error" with
         | None | Some JNull => true
         | Some e => is_JsonRpcError e
         end
  | _ => false
  end.

(** The claim on the stored settings: a non-empty endpoint root with no
    trailing slash and a non-empty credential. *)
Definition settings_ok (c : OdooProxyApiClient) : Prop :=
  baseUrl c <> EmptyString
  /\ ends_with_slash (baseUrl c) = false
  /\ apiKey c <> EmptyString.

(** ** Concrete inputs *)

(** A transport that answers every call with [r], and one that always
    rejects with [e]. *)
Definition respond_with (r : Response) : fetch_fn := fun _ _ => inr r.
Definition reject_with (e : js_thrown) : fetch_fn := fun _ _ => inl e.

Definition sample_client (f : fetch_fn) : OdooProxyApiClient :=
  {| baseUrl := "http://h"; apiKey := "secret"; fetchFn := f |}.

Definition fresh (c : OdooProxyApiClient) : World :=
  {| this := c; trace := [] |}.

Definition sample_request : OdooProxyRequest :=
  {| id := "x";
     action := search_read;
     model_id := "res.partner";
     keyword := Undefined;
     params := Value [AnyJson (JArr [])];
     fn_name := Null;
     odoo_instance :=
       {| url := "https://odoo"; user_id := 2; db := "db";
          api_key := "user-key" |} |}.

(** A request whose keyword arguments hold a BigInt. *)
Definition bigint_request : OdooProxyRequest :=
  {| id := "y";
     action := search_read;
     model_id := "res.partner";
     keyword := Value (<["limit" := AnyOther 1]> ∅);
     params := Undefined;
     fn_name := Undefined;
     odoo_instance :=
       {| url := "https://odoo"; user_id := 2; db := "db";
          api_key := "user-key" |} |}.

(** The request holds, in its keyword or positional arguments, a value
    that is not JSON data. *)
Definition is_other (a : any) : bool :=
  match a with AnyOther _ => true | AnyJson _ => false end.

Definition holds_other (request : OdooProxyRequest) : bool :=
  match keyword request with
  | Value m => existsb (fun kv => is_other (snd kv)) (map_to_list m)
  | _ => false
  end
  || match params request with
     | Value l => existsb is_other l
     | _ => false
     end.

(** A serializer that prints the request id alone, and throws as
    [JSON.stringify] does on a BigInt when the request holds a value that
    is not JSON data.  It stands in for [JSON.stringify] in the concrete
    runs; the statements hold for any serializer. *)
Definition id_stringify (request : OdooProxyRequest)
    : js_thrown + option string :=
  if holds_other request
  then inl (js_value (Some "Do not know how to serialize a BigInt"))
  else inr (Some (dq "{'id':'" +:+ id request +:+ dq "'}")).

Definition response_of (code : Z) (reason : string) (payload : string)
    : Response :=
  {| status := code; statusText := reason; text := inr payload |}.

Definition body_result : string :=
  dq "{'jsonrpc':'2.0','id':'x','result':[1,2]}".
Definition body_error : string :=
  dq "{'jsonrpc':'2.0','id':'x','error':{'code':-32600,'message':'bad'}}".
Definition body_untagged : string :=
  dq "{'result':[1,2],'id':'x'}".
Definition body_numeric_id : string :=
  dq "{'jsonrpc':'2.0','id':7,'error':{}}".

Definition envelope_result : json :=
  JObj (<["jsonrpc" := JStr "2.0"]>
        (<["id" := JStr "x"]>
         (<["result" := JArr [JNum (number_of_Z 1); JNum (number_of_Z 2)]]>
 ∅))).
Definition error_object : json :=
  JObj (<["code" := JNum (number_of_Z (-32600))]>
(<["message" := JStr "bad"]> ∅)).
Definition envelope_error : json :=
  JObj (<["jsonrpc" := JStr "2.0"]>
        (<["id" := JStr "x"]> (<["error" := error_object]> ∅))).
Definition value_untagged : json :=
  JObj (<["result" := JArr [JNum (number_of_Z 1); JNum (number_of_Z 2)]]>
(<["id" := JStr "x"]> ∅)).
Definition envelope_numeric_id : json :=
  JObj (<["jsonrpc" := JStr "2.0"]>
        (<["id" := JNum (number_of_Z 7)]> (<["error" := JObj ∅]> ∅))).

(** A configuration whose endpoint root is a single slash. *)
Definition slash_config (f : fetch_fn) : OdooApiClientConfig.t :=
  {| OdooApiClientConfig.baseUrl := Some "/";
     OdooApiClientConfig.apiKey := Some "secret";
     OdooApiClientConfig.fetch := Some f |}.

Definition sample_config (root : string) (f : fetch_fn)
    : OdooApiClientConfig.t :=
  {| OdooApiClientConfig.baseUrl := Some root;
     OdooApiClientConfig.apiKey := Some "secret";
     OdooApiClientConfig.fetch := Some f |}.

(** ** The usage example of the client (lines 312-330)

    The example keeps one client in a module-level variable, [apiClient],
    initially [null], and builds it on first use from a fixed configuration
    that supplies no transport of its own. *)

Definition getApiClient_config : OdooApiClientConfig.t :=
  {| OdooApiClientConfig.baseUrl := Some "https://theodx-api-gateway";
     OdooApiClientConfig.apiKey := Some "my_secret_key";
     OdooApiClientConfig.fetch := None |}.

(** [getApiClient()], run with the variable holding [apiClient] in an
    environment whose [globalThis.fetch] is [globalThis_fetch]: the result
    (or the error thrown by the factory) and the variable afterwards. *)
Definition getApiClient (globalThis_fetch : option fetch_fn)
    (apiClient : option OdooProxyApiClient)
    : (exn + OdooProxyApiClient) * option OdooProxyApiClient :=
  match apiClient with
  | Some c => (inr c, Some c)
  | None =>
      match createOdooProxyClient globalThis_fetch getApiClient_config with
      | inl e => (inl e, None)
      | inr c => (inr c, Some c)
      end
  end.

(** The variable after a run of calls of [getApiClient], the ambient
    transport of each call being given in turn. *)
Fixpoint getApiClient_calls (ambient : list (option fetch_fn))
    (apiClient : option OdooProxyApiClient) : option OdooProxyApiClient :=
  match ambient with
  | [] => apiClient
  | g :: rest => getApiClient_calls rest (snd (getApiClient g apiClient))
  end.

(** ** Further names used in the statements *)

(** The endpoint root or the credential is missing or empty. *)
Definition settings_missing (config : OdooApiClientConfig.t) : Prop :=
  OdooApiClientConfig.baseUrl config = None
  \/ OdooApiClientConfig.baseUrl config = Some EmptyString
  \/ OdooApiClientConfig.apiKey config = None
  \/ OdooApiClientConfig.apiKey config = Some EmptyString.

(** The transport call that client [c] makes with body [payload]. *)
Definition post_event (c : OdooProxyApiClient) (payload : option string)
    : event :=
  EvFetch (baseUrl c +:+ "/api/odoo")
    {| method := "POST";
       headers := [ ("Content-Type", "application/json");
                    ("Accept", "application/json");
                    ("apikey", apiKey c) ];
       body := payload |}.

(** The values the two handlers of a call can catch from the platform:
    what [JSON.stringify] threw, what the transport rejected with, and,
    under an expected status, what the body read rejected with. *)
Definition caught
    (JSON_stringify : OdooProxyRequest -> js_thrown + option string)
    (w : World) (request : OdooProxyRequest) (e : js_thrown) : Prop :=
  JSON_stringify request = inl e
  \/ exists payload,
       JSON_stringify request = inr payload
       /\ (fetchFn (this w) (target_url (this w))
             (post_init (this w) payload) = inl e
           \/ exists r,
                fetchFn (this w) (target_url (this w))
                  (post_init (this w) payload) = inr r
                /\ status r ∈ expectedStatuses
                /\ text r = inl e).

(** What the handler of lines 188-194 throws for a caught value, and what
    the handler of lines 225-229 throws for a caught rejection. *)
Definition network_failure (e : js_thrown) : exn :=
  match e with
  | js_undefined | js_null => TypeError (nullish_read_message e)
  | js_value m =>
      OdooProxyApiHttpError
        ("Network error calling Odoo Proxy API: "
           +:+ nullish_or m "Unknown network error")
        None None None
  | js_throwing x => x
  end.

Definition read_failure (e : js_thrown) : exn :=
  match e with
  | js_undefined | js_null => TypeError (nullish_read_message e)
  | js_value m =>
      OdooProxyApiFormatError
        ("Failed to parse JSON response from Odoo Proxy API: "
           +:+ nullish_or m "Unknown parsing error")
  | js_throwing x => x
  end.

(** The platform operations of one call on client [c], read off what the
    serializer, the transport and the response give: nothing when the
    request does not serialize; else the transport call, then, when the
    transport answers, one body read, then one parse when the status is
    expected and the read gave a non-empty text. *)
Definition call_events
    (JSON_stringify : OdooProxyRequest -> js_thrown + option string)
    (c : OdooProxyApiClient) (request : OdooProxyRequest) : list event :=
  match JSON_stringify request with
  | inl _ => []
  | inr payload =>
      post_event c payload
      :: match fetchFn c (target_url c) (post_init c payload) with
         | inl _ => []
         | inr r =>
             EvText r
             :: match text r with
                | inr t =>
                    if bool_decide (status r ∈ expectedStatuses)
                       && negb (falsy_string t)
                    then [EvParse t] else []
                | inl _ => []
                end
         end
  end.

(** A text of [n] copies of a character. *)
Fixpoint repeat_char (n : nat) (c : ascii) : string :=
  match n with
  | O => EmptyString
  | S n' => String c (repeat_char n' c)
  end.

(** What [id_stringify] prints for [sample_request]. *)
Definition sample_payload : option string := Some (dq "{'id':'x'}").

(** The world of a fresh sample client whose transport answers [r]. *)
Definition world_with (r : Response) : World :=
  fresh (sample_client (respond_with r)).

Definition not_found : Response := response_of 404 "Not Found" "oops".

(** A response whose body read rejects with [undefined]. *)
Definition unreadable (code : Z) (reason : string) : Response :=
  {| status := code; statusText := reason; text := inl js_undefined |}.

(** ** Path lemmas for [forwardToOdoo] *)

Lemma string_app_empty_r (s : string) : s +:+ EmptyString = s.
Proof.
  induction s as [|c s IH]; [reflexivity|].
  change (String c (s +:+ EmptyString) = String c s). now rewrite IH.
Qed.

Lemma string_app_assoc (a b c : string) : (a +:+ b) +:+ c = a +:+ (b +:+ c).
Proof.
  induction a as [|x a IH]; [reflexivity|].
  change (String x ((a +:+ b) +:+ c) = String x (a +:+ (b +:+ c))).
  now rewrite IH.
Qed.

Ltac run_dispatch :=
  unfold forwardToOdoo, call_fetch, read_text, call_JSON_parse, get_this,
    log, await, get_message, bind, try_catch, ret, throw,
    new_OdooProxyApiHttpError, target_url, post_init, after in *;
  cbn [fst snd this trace fmap option_fmap option_map] in *.

Section Paths.

Variable JSON_stringify : OdooProxyRequest -> js_thrown + option string.
Variable JSON_parse : string -> string + json.

Abbreviation dispatch := (forwardToOdoo JSON_stringify JSON_parse).
Abbreviation answer w payload :=
  (fetchFn (this w) (target_url (this w)) (post_init (this w) payload)).
Abbreviation sent w payload :=
  (EvFetch (target_url (this w)) (post_init (this w) payload)).

Lemma path_stringify_throws request w e :
  JSON_stringify request = inl e ->
  dispatch request w = (Thrown (network_failure e), w).
Proof.
  intros H. run_dispatch. rewrite H. cbn.
  destruct e as [| |m|x]; reflexivity.
Qed.

Lemma path_fetch_fails request w payload e :
  JSON_stringify request = inr payload ->
  answer w payload = inl e ->
  dispatch request w
  = (Thrown (network_failure e), after w [sent w payload]).
Proof.
  intros Hj H. run_dispatch. rewrite Hj. cbn. rewrite H. cbn.
  destruct e as [| |m|x]; reflexivity.
Qed.

Lemma path_fetch_rejects request w payload m :
  JSON_stringify request = inr payload ->
  answer w payload = inl (js_value m) ->
  dispatch request w
  = (Thrown (OdooProxyApiHttpError
               ("Network error calling Odoo Proxy API: "
                  +:+ nullish_or m "Unknown network error")
               None None None),
     after w [sent w payload]).
Proof. intros Hj H. now rewrite (path_fetch_fails _ _ _ _ Hj H). Qed.

Lemma path_unexpected_status request w payload r :
  JSON_stringify request = inr payload ->
  answer w payload = inr r ->
  status r ∉ expectedStatuses ->
  dispatch request w
  = (Thrown (OdooProxyApiHttpError
               ("Unexpected HTTP response from Odoo Proxy API. "
                  +:+ diagnostics r)
               (Some (status r)) (Some (statusText r)) (Some r)),
     after w [sent w payload; EvText r]).
Proof.
  intros Hj H Hs. run_dispatch. rewrite Hj. cbn. rewrite H. cbn -[pretty].
  rewrite bool_decide_eq_false_2 by exact Hs. cbn -[pretty].
  unfold diagnostics.
  rewrite <- app_assoc. cbn [app].
  destruct (text r) as [e|t]; cbn -[pretty String.substring].
  - now rewrite string_app_empty_r.
  - destruct t as [|c t]; cbn -[pretty String.substring].
    + now rewrite string_app_empty_r.
    + now rewrite !string_app_assoc.
Qed.

Lemma path_text_fails request w payload r e :
  JSON_stringify request = inr payload ->
  answer w payload = inr r ->
  status r ∈ expectedStatuses ->
  text r = inl e ->
  dispatch request w
  = (Thrown (read_failure e), after w [sent w payload; EvText r]).
Proof.
  intros Hj H Hs Ht. run_dispatch. rewrite Hj. cbn. rewrite H. cbn.
  rewrite bool_decide_eq_true_2 by exact Hs. cbn.
  rewrite Ht. cbn. rewrite <- app_assoc.
  destruct e as [| |m|x]; reflexivity.
Qed.

Lemma path_empty_body request w payload r :
  JSON_stringify request = inr payload ->
  answer w payload = inr r ->
  status r ∈ expectedStatuses ->
  text r = inr EmptyString ->
  dispatch request w
  = (Thrown (OdooProxyApiFormatError
               ("Failed to parse JSON response from Odoo Proxy API: "
                  +:+ "Received empty response body")),
     after w [sent w payload; EvText r]).
Proof.
  intros Hj H Hs Ht. run_dispatch. rewrite Hj. cbn. rewrite H. cbn.
  rewrite bool_decide_eq_true_2 by exact Hs. cbn.
  rewrite Ht. cbn. now rewrite <- app_assoc.
Qed.

Lemma path_parse_fails request w payload r t m :
  JSON_stringify request = inr payload ->
  answer w payload = inr r ->
  status r ∈ expectedStatuses ->
  text r = inr t ->
  t <> EmptyString ->
  JSON_parse t = inl m ->
  dispatch request w
  = (Thrown (OdooProxyApiFormatError
               ("Failed to parse JSON response from Odoo Proxy API: "
                  +:+ m)),
     after w [sent w payload; EvText r; EvParse t]).
Proof.
  intros Hj H Hs Ht Hne Hp. run_dispatch. rewrite Hj. cbn. rewrite H. cbn.
  rewrite bool_decide_eq_true_2 by exact Hs. cbn.
  rewrite Ht. cbn. destruct t as [|c t]; [congruence|]. cbn.
  rewrite Hp. cbn. now rewrite <- !app_assoc.
Qed.

Lemma path_parsed request w payload r t v :
  JSON_stringify request = inr payload ->
  answer w payload = inr r ->
  status r ∈ expectedStatuses ->
  text r = inr t ->
  t <> EmptyString ->
  JSON_parse t = inr v ->
  dispatch request w
  = (if rejected v
     then Thrown (OdooProxyApiFormatError
       "Invalid JSON-RPC 2.0 response format received from Odoo Proxy API.")
     else Returned v,
     after w [sent w payload; EvText r; EvParse t]).
Proof.
  intros Hj H Hs Ht Hne Hp. run_dispatch. rewrite Hj. cbn. rewrite H. cbn.
  rewrite bool_decide_eq_true_2 by exact Hs. cbn.
  rewrite Ht. cbn. destruct t as [|c t]; [congruence|]. cbn.
  rewrite Hp. cbn. rewrite <- !app_assoc. cbn [app].
  unfold rejected. now destruct (_ || _).
Qed.

(** The seven paths of a call. *)
Lemma dispatch_cases request w :
  (exists e,
     JSON_stringify request = inl e
     /\ dispatch request w = (Thrown (network_failure e), w))
  \/ exists payload,
       JSON_stringify request = inr payload
       /\ ((exists e,
              answer w payload = inl e
              /\ dispatch request w
                 = (Thrown (network_failure e), after w [sent w payload]))
           \/ exists r,
                answer w payload = inr r
                /\ (((status r ∉ expectedStatuses)
                     /\ dispatch request w
                        = (Thrown (OdooProxyApiHttpError
                             ("Unexpected HTTP response from Odoo Proxy API. "
                                +:+ diagnostics r)
                             (Some (status r)) (Some (statusText r))
                             (Some r)),
                           after w [sent w payload; EvText r]))
                    \/ ((status r ∈ expectedStatuses)
                        /\ ((exists e,
                               text r = inl e
                               /\ dispatch request w
                                  = (Thrown (read_failure e),
                                     after w [sent w payload; EvText r]))
                            \/ (text r = inr EmptyString
                                /\ dispatch request w
                                   = (Thrown (OdooProxyApiFormatError
                                        ("Failed to parse JSON response from Odoo Proxy API: "
                                           +:+ "Received empty response body")),
                                      after w [sent w payload; EvText r]))
                            \/ exists t,
                                 text r = inr t /\ t <> EmptyString
                                 /\ ((exists m,
                                        JSON_parse t = inl m
                                        /\ dispatch request w
                                           = (Thrown (OdooProxyApiFormatError
                                                ("Failed to parse JSON response from Odoo Proxy API: "
                                                   +:+ m)),
                                              after w [sent w payload;
                                                       EvText r; EvParse t]))
                                     \/ exists v,
                                          JSON_parse t = inr v
                                          /\ dispatch request w
                                             = (if rejected v
                                                then Thrown
                                                  (OdooProxyApiFormatError
                                                     "Invalid JSON-RPC 2.0 response format received from Odoo Proxy API.")
                                                else Returned v,
                                                after w [sent w payload;
                                                         EvText r;
                                                         EvParse t])))))).
Proof.
  destruct (JSON_stringify request) as [e|payload] eqn:Hj.
  { left. exists e. split; [reflexivity|]. now apply path_stringify_throws. }
  right. exists payload. split; [reflexivity|].
  destruct (answer w payload) as [e|r] eqn:H.
  { left. exists e. split; [reflexivity|]. now apply path_fetch_fails. }
  right. exists r. split; [reflexivity|].
  destruct (decide (status r ∈ expectedStatuses)) as [Hs|Hs].
  2:{ left. split; [exact Hs|]. now apply path_unexpected_status. }
  right. split; [exact Hs|].
  destruct (text r) as [e|t] eqn:Ht.
  { left. exists e. split; [reflexivity|]. now apply path_text_fails. }
  right.
  destruct (decide (t = EmptyString)) as [->|Hne].
  { left. split; [reflexivity|]. now apply path_empty_body. }
  right. exists t. split; [reflexivity|]. split; [exact Hne|].
  destruct (JSON_parse t) as [m|v] eqn:Hp.
  - left. exists m. split; [reflexivity|]. now apply path_parse_fails.
  - right. exists v. split; [reflexivity|]. now apply path_parsed.
Qed.

End Paths.

(** ** Checks of the reader and of the samples *)

Example reader_result : Reader.parse body_result = inr envelope_result.
Proof. vm_compute. reflexivity. Qed.

Example reader_error : Reader.parse body_error = inr envelope_error.
Proof. vm_compute. reflexivity. Qed.

Example reader_untagged : Reader.parse body_untagged = inr value_untagged.
Proof. vm_compute. reflexivity. Qed.

Example reader_numeric_id :
  Reader.parse body_numeric_id = inr envelope_numeric_id.
Proof. vm_compute. reflexivity. Qed.

Example reader_not_json :
  Reader.parse "not json" = inl "Unexpected token in JSON".
Proof. vm_compute. reflexivity. Qed.

Lemma reader_empty (v : json) : Reader.parse EmptyString <> inr v.
Proof. discriminate. Qed.

(** ** The validation test against the envelope of the specification *)

Lemma not_strictly_2_0_false (x : option json) :
  not_strictly_2_0 x = false <-> x = Some (JStr "2.0").
Proof.
  unfold not_strictly_2_0. split.
  - destruct x as [[| | |s| |]|]; try discriminate.
    intros H. apply negb_false_iff, String.eqb_eq in H. now subst.
  - intros ->. reflexivity.
Qed.

Lemma has_key_true (k : string) (v : json) :
  has_key k v = true <-> is_Some (get_prop v k).
Proof. unfold has_key. apply bool_decide_eq_true. Qed.

Lemma rejected_false_iff (v : json) :
  rejected v = false <-> valid_envelope v.
Proof.
  unfold rejected, valid_envelope. split.
  - intros H.
    apply orb_false_iff in H as [H Hid].
    apply orb_false_iff in H as [H Htag].
    apply orb_false_iff in H as [Hobj Hnull].
    destruct v as [| | | | |props]; try discriminate.
    exists props. split; [reflexivity|]. split.
    + now apply not_strictly_2_0_false.
    + apply negb_false_iff in Hid. now apply has_key_true in Hid.
  - intros (props & -> & Htag & Hid). cbn [typeof_object is_null negb orb].
    apply orb_false_iff. split.
    + now apply not_strictly_2_0_false.
    + apply negb_false_iff. now apply has_key_true.
Qed.

Lemma invalid_iff_not_valid (v : json) :
  invalid_envelope v <-> ~ valid_envelope v.
Proof.
  unfold invalid_envelope, valid_envelope. split.
  - intros [H | [H | [H | H]]] (props & -> & Htag & Hid).
    + now apply (H props).
    + discriminate.
    + now apply H.
    + cbn in H. rewrite H in Hid. now destruct Hid.
  - intros H. destruct v as [| | | | |props];
      try (left; intros props'; discriminate).
    destruct (not_strictly_2_0 (props !! "jsonrpc")) eqn:Htag.
    + right; right; left. cbn. intros E.
      apply not_strictly_2_0_false in E. congruence.
    + apply not_strictly_2_0_false in Htag.
      right; right; right. cbn.
      destruct (props !! "id") as [x|] eqn:Hid; [|reflexivity].
      exfalso. apply H. exists props. rewrite Hid. eauto.
Qed.

Lemma rejected_true_iff (v : json) :
  rejected v = true <-> invalid_envelope v.
Proof.
  rewrite invalid_iff_not_valid, <- rejected_false_iff.
  destruct (rejected v); split; congruence.
Qed.

(** ** Removing the trailing slash *)

Lemma replace_trailing_slash_app (s : string) :
  replace_trailing_slash (s +:+ "/") = s.
Proof.
  induction s as [|c s IH]; [reflexivity|].
  change (replace_trailing_slash (String c (s +:+ "/")) = String c s).
  cbn [replace_trailing_slash]. rewrite IH.
  destruct s; reflexivity.
Qed.

Lemma ends_with_slash_app (s : string) : ends_with_slash (s +:+ "/") = true.
Proof.
  induction s as [|c s IH]; [reflexivity|].
  change (ends_with_slash (String c (s +:+ "/")) = true).
  cbn [ends_with_slash]. rewrite IH. destruct s; reflexivity.
Qed.

Lemma ends_with_slash_split (s : string) :
  ends_with_slash s = true -> exists p, s = p +:+ "/".
Proof.
  induction s as [|c s IH]; [discriminate|].
  destruct s as [|d s].
  - cbn. intros H. apply Ascii.eqb_eq in H. subst. now exists EmptyString.
  - intros H. destruct (IH H) as [p Hp]. exists (String c p).
    change (String c (String d s) = String c (p +:+ "/")). now rewrite Hp.
Qed.

Lemma replace_trailing_slash_id (s : string) :
  ends_with_slash s = false -> replace_trailing_slash s = s.
Proof.
  induction s as [|c s IH]; [reflexivity|].
  destruct s as [|d s].
  - cbn. now intros ->.
  - intros H. cbn [replace_trailing_slash]. f_equal. now apply IH.
Qed.

Lemma no_slash_suffix (s : string) :
  (forall p, s <> p +:+ "/") -> ends_with_slash s = false.
Proof.
  intros H. destruct (ends_with_slash s) eqn:E; [|reflexivity].
  destruct (ends_with_slash_split s E) as [p Hp]. now destruct (H p).
Qed.

(** ** The dispatch operation *)

Section Dispatch_facts.

Variable JSON_stringify : OdooProxyRequest -> js_thrown + option string.
Variable JSON_parse : string -> string + json.

Abbreviation dispatch := (forwardToOdoo JSON_stringify JSON_parse).
Abbreviation answer w payload :=
  (fetchFn (this w) (target_url (this w)) (post_init (this w) payload)).
Abbreviation sent w payload :=
  (EvFetch (target_url (this w)) (post_init (this w) payload)).

(** The platform operations of a call are those read off the platform's
    answers, in that order, and nothing else of the world changes. *)
Lemma dispatch_world request w :
  snd (dispatch request w)
  = after w (call_events JSON_stringify (this w) request).
Proof.
  unfold call_events.
  destruct (dispatch_cases JSON_stringify JSON_parse request w)
    as [(e & Hj & E)|(payload & Hj & [(e & H & E)|(r & H &
         [(Hs & E)|(Hs & [(e & Ht & E)|[(Ht & E)|(t & Ht & Hne &
           [(m & Hp & E)|(v & Hp & E)])]])])])];
    rewrite E, Hj; cbn [snd].
  - destruct w as [c tr]. unfold after. cbn. now rewrite app_nil_r.
  - now rewrite H.
  - rewrite H. destruct (text r) as [e|t]; [reflexivity|].
    now rewrite bool_decide_eq_false_2 by exact Hs.
  - now rewrite H, Ht.
  - rewrite H, Ht. cbn. now rewrite andb_false_r.
  - rewrite H, Ht. rewrite bool_decide_eq_true_2 by exact Hs.
    destruct t; [congruence|reflexivity].
  - rewrite H, Ht. rewrite bool_decide_eq_true_2 by exact Hs.
    destruct t; [congruence|reflexivity].
Qed.

(** A call leaves the client object as it found it. *)
Lemma dispatch_this request w : this (snd (dispatch request w)) = this w.
Proof. now rewrite dispatch_world. Qed.

Lemma lifetime_this requests w :
  this (lifetime dispatch requests w) = this w.
Proof.
  revert w. induction requests as [|request rest IH]; intros w.
  - reflexivity.
  - cbn [lifetime]. rewrite IH. apply dispatch_this.
Qed.

(** When the transport error is raised, for caught values whose message
    can be read and printed. *)
Lemma transport_error_iff request w :
  (forall e, caught JSON_stringify w request e -> exists m, e = js_value m) ->
  (exists m s st resp,
      fst (dispatch request w) = Thrown (OdooProxyApiHttpError m s st resp))
  <-> ((exists e, JSON_stringify request = inl e)
       \/ exists payload,
            JSON_stringify request = inr payload
            /\ ((exists e, answer w payload = inl e)
                \/ exists r, answer w payload = inr r
                             /\ status r ∉ expectedStatuses)).
Proof.
  intros Hplain. unfold caught in Hplain.
  destruct (dispatch_cases JSON_stringify JSON_parse request w)
    as [(e & Hj & E)|(payload & Hj & [(e & H & E)|(r & H &
         [(Hs & E)|(Hs & [(e & Ht & E)|[(Ht & E)|(t & Ht & Hne &
           [(m & Hp & E)|(v & Hp & E)])]])])])];
    rewrite E; cbn [fst].
  - destruct (Hplain e) as [m ->]; [now left|]. cbn. split; eauto 10.
  - destruct (Hplain e) as [m ->]; [right; eauto|]. cbn. split; eauto 10.
  - split; eauto 10.
  - destruct (Hplain e) as [m ->]; [right; eauto 10|]. cbn.
    split; [intros (? & ? & ? & ? & ?); discriminate|].
    intros [[e' He']|(p' & Hp' & [[e' He']|(r' & Hr' & Hs')])];
      congruence.
  - split; [intros (? & ? & ? & ? & ?); discriminate|].
    intros [[e' He']|(p' & Hp' & [[e' He']|(r' & Hr' & Hs')])];
      congruence.
  - split; [intros (? & ? & ? & ? & ?); discriminate|].
    intros [[e' He']|(p' & Hp' & [[e' He']|(r' & Hr' & Hs')])];
      congruence.
  - split; [intros (? & ? & ? & ? & Hd); destruct (rejected v); discriminate|].
    intros [[e' He']|(p' & Hp' & [[e' He']|(r' & Hr' & Hs')])];
      congruence.
Qed.

(** An out-of-contract status: the error holds the status, the status
    text, the diagnostics and the response, and no parse took place. *)
Lemma unexpected_status_error request w payload r :
  JSON_stringify request = inr payload ->
  answer w payload = inr r ->
  status r ∉ expectedStatuses ->
  fst (dispatch request w)
  = Thrown (OdooProxyApiHttpError
              ("Unexpected HTTP response from Odoo Proxy API. "
                 +:+ diagnostics r)
              (Some (status r)) (Some (statusText r)) (Some r))
  /\ List.filter is_parse (trace (snd (dispatch request w)))
     = List.filter is_parse (trace w).
Proof.
  intros Hj H Hs. rewrite (path_unexpected_status _ _ _ _ _ _ Hj H Hs).
  split; [reflexivity|]. cbn. rewrite List.filter_app. cbn.
  apply app_nil_r.
Qed.

(** A failed body read under an expected status, for a rejection value
    whose message can be read and printed. *)
Lemma read_failure_is_format_error request w payload r m :
  JSON_stringify request = inr payload ->
  answer w payload = inr r ->
  status r ∈ expectedStatuses ->
  text r = inl (js_value m) ->
  fst (dispatch request w)
  = Thrown (OdooProxyApiFormatError
              ("Failed to parse JSON response from Odoo Proxy API: "
                 +:+ nullish_or m "Unknown parsing error")).
Proof.
  intros Hj H Hs Ht. now rewrite (path_text_fails _ _ _ _ _ _ _ Hj H Hs Ht).
Qed.

End Dispatch_facts.

Section Dispatch_statements.

Variable JSON_stringify : OdooProxyRequest -> js_thrown + option string.
Variable JSON_parse : string -> string + json.

Abbreviation dispatch := (forwardToOdoo JSON_stringify JSON_parse).
Abbreviation answer w payload :=
  (fetchFn (this w) (target_url (this w)) (post_init (this w) payload)).

(** C1.  When the response has a status in 200, 400, 401, 500, 502, 504
    and its body parses to a structurally valid envelope (an object whose
    jsonrpc is 2.0 and which has an id key), the call returns that very
    parsed value, whatever else the envelope holds, an error member
    included: nothing is thrown.  The first hypothesis is the platform
    fact that the empty text is not JSON; the next two say that the
    response is the transport's answer to the serialized request. *)
Theorem C1_valid_envelope_returned request w payload r t v :
  (forall v', JSON_parse EmptyString <> inr v') ->
  JSON_stringify request = inr payload ->
  answer w payload = inr r ->
  status r ∈ expectedStatuses ->
  text r = inr t ->
  JSON_parse t = inr v ->
  valid_envelope v ->
  fst (dispatch request w) = Returned v.
Proof.
  intros Hempty Hj H Hs Ht Hp Hv.
  assert (Hne : t <> EmptyString).
  { intros ->. now apply (Hempty v). }
  rewrite (path_parsed _ _ _ _ _ _ _ _ Hj H Hs Ht Hne Hp). cbn.
  apply rejected_false_iff in Hv. now rewrite Hv.
Qed.

(** C3.  When the response has an expected status and its non-empty body
    parses as JSON, the call throws a format error exactly when the parsed
    value is not an object, is null, has a jsonrpc member other than the
    string 2.0 (or none), or has no id key; in every other case it returns
    the parsed value, so an id that is null is accepted and neither result
    nor error is required or excluded. *)
Theorem C3_format_error_iff_invalid request w payload r t v :
  JSON_stringify request = inr payload ->
  answer w payload = inr r ->
  status r ∈ expectedStatuses ->
  text r = inr t ->
  t <> EmptyString ->
  JSON_parse t = inr v ->
  ((exists m, fst (dispatch request w) = Thrown (OdooProxyApiFormatError m))
   <-> invalid_envelope v)
  /\ (~ invalid_envelope v -> fst (dispatch request w) = Returned v)
  /\ (forall props,
        v = JObj props ->
        props !! "jsonrpc" = Some (JStr "2.0") ->
        props !! "id" = Some JNull ->
        fst (dispatch request w) = Returned v).
Proof.
  intros Hj H Hs Ht Hne Hp.
  rewrite (path_parsed _ _ _ _ _ _ _ _ Hj H Hs Ht Hne Hp). cbn [fst].
  destruct (rejected v) eqn:Hr.
  - assert (Hi : invalid_envelope v) by now apply rejected_true_iff.
    split; [split; eauto|]. split.
    + intros Hn. now destruct Hn.
    + intros props -> Htag Hid. exfalso.
      apply invalid_iff_not_valid in Hi. apply Hi.
      exists props. rewrite Hid. eauto.
  - assert (Hv : ~ invalid_envelope v).
    { rewrite <- rejected_true_iff. congruence. }
    split; [|split; reflexivity].
    split; [intros [m Hm]; discriminate | intros Hi; now destruct Hv].
Qed.

(** C4.  Under an expected status, an empty body makes the call throw a
    format error whose message ends with the words Received empty response
    body, and a non-empty body that does not parse makes it throw a format
    error whose message ends with the message of the parse failure. *)
Theorem C4_empty_or_unparsable_body request w payload r :
  JSON_stringify request = inr payload ->
  answer w payload = inr r ->
  status r ∈ expectedStatuses ->
  (text r = inr EmptyString ->
   fst (dispatch request w)
   = Thrown (OdooProxyApiFormatError
               ("Failed to parse JSON response from Odoo Proxy API: "
                  +:+ "Received empty response body")))
  /\ (forall t m,
        text r = inr t -> t <> EmptyString -> JSON_parse t = inl m ->
        fst (dispatch request w)
        = Thrown (OdooProxyApiFormatError
                    ("Failed to parse JSON response from Odoo Proxy API: "
                       +:+ m))).
Proof.
  intros Hj H Hs. split.
  - intros Ht. now rewrite (path_empty_body _ _ _ _ _ _ Hj H Hs Ht).
  - intros t m Ht Hne Hp.
    now rewrite (path_parse_fails _ _ _ _ _ _ _ _ Hj H Hs Ht Hne Hp).
Qed.

(** C5, as amended.  A call whose request the serializer can print
    performs exactly one transport call: the events it adds to the trace
    start with a POST to the stored endpoint root followed by /api/odoo,
    with the headers Content-Type and Accept set to application/json and
    apikey set to the stored credential, and with the serialization of the
    request for body, and no other transport call follows.  The call then
    goes on with what the transport gave to that very call: its rejection
    ends the call with the network error made of its message, its response
    is the one whose body is read next.  When the serializer throws, no
    transport call is made at all.  The request takes part in the call
    through its serialization alone. *)
Theorem C5_exactly_one_post request w :
  (forall payload,
     JSON_stringify request = inr payload ->
     exists tail,
       trace (snd (dispatch request w))
       = trace w
         ++ EvFetch (baseUrl (this w) +:+ "/api/odoo")
              {| method := "POST";
                 headers := [ ("Content-Type", "application/json");
                              ("Accept", "application/json");
                              ("apikey", apiKey (this w)) ];
                 body := payload |}
            :: tail
       /\ List.filter is_fetch tail = []
       /\ (forall m,
             fetchFn (this w) (baseUrl (this w) +:+ "/api/odoo")
               {| method := "POST";
                  headers := [ ("Content-Type", "application/json");
                               ("Accept", "application/json");
                               ("apikey", apiKey (this w)) ];
                  body := payload |}
             = inl (js_value m) ->
             tail = []
             /\ fst (dispatch request w)
                = Thrown (OdooProxyApiHttpError
                            ("Network error calling Odoo Proxy API: "
                               +:+ nullish_or m "Unknown network error")
                            None None None))
       /\ (forall r,
             fetchFn (this w) (baseUrl (this w) +:+ "/api/odoo")
               {| method := "POST";
                  headers := [ ("Content-Type", "application/json");
                               ("Accept", "application/json");
                               ("apikey", apiKey (this w)) ];
                  body := payload |}
             = inr r ->
             exists tail', tail = EvText r :: tail'))
  /\ (forall e,
        JSON_stringify request = inl e ->
        trace (snd (dispatch request w)) = trace w)
  /\ (forall request',
        JSON_stringify request' = JSON_stringify request ->
        dispatch request' w = dispatch request w).
Proof.
  split; [|split].
  - intros payload Hj. rewrite dispatch_world. unfold call_events.
    rewrite Hj. cbn [after trace].
    change (fetchFn (this w) (target_url (this w))
              (post_init (this w) payload))
      with (answer w payload).
    exists (match answer w payload with
            | inl _ => []
            | inr r =>
                EvText r
                :: match text r with
                   | inr t =>
                       if bool_decide (status r ∈ expectedStatuses)
                          && negb (falsy_string t)
                       then [EvParse t] else []
                   | inl _ => []
                   end
            end).
    split; [reflexivity|]. split; [|split].
    + destruct (answer w payload) as [e|r]; [reflexivity|].
      destruct (text r) as [e|t]; [reflexivity|].
      now destruct (_ && _).
    + intros m H.
      change (answer w payload = inl (js_value m)) in H. rewrite H.
      split; [reflexivity|].
      now rewrite (path_fetch_rejects _ _ _ _ _ _ Hj H).
    + intros r H. change (answer w payload = inr r) in H. rewrite H. eauto.
  - intros e Hj. now rewrite (path_stringify_throws _ _ _ _ _ Hj).
  - intros request' E. unfold forwardToOdoo, bind, try_catch. cbn.
    now rewrite E.
Qed.

(** C10.  The validation looks at the presence of the id key and at the
    value of jsonrpc only.  Under an expected status, a body that parses
    to an object with jsonrpc 2.0 and an id key is returned even when its
    id is a number or its error member is an object with neither code nor
    message, although such a value does not have the declared response
    type. *)
Theorem C10_no_type_check request w payload r t props :
  JSON_stringify request = inr payload ->
  answer w payload = inr r ->
  status r ∈ expectedStatuses ->
  text r = inr t ->
  t <> EmptyString ->
  JSON_parse t = inr (JObj props) ->
  props !! "jsonrpc" = Some (JStr "2.0") ->
  is_Some (props !! "id") ->
  ((exists n, props !! "id" = Some (JNum n))
   \/ (exists e, props !! "error" = Some (JObj e)
                 /\ e !! "code" = None /\ e !! "message" = None)) ->
  fst (dispatch request w) = Returned (JObj props)
  /\ conforms_JsonRpcResponse (JObj props) = false.
Proof.
  intros Hj H Hs Ht Hne Hp Htag Hid Hodd.
  rewrite (path_parsed _ _ _ _ _ _ _ _ Hj H Hs Ht Hne Hp). cbn [fst].
  assert (Hv : rejected (JObj props) = false).
  { apply rejected_false_iff. exists props. eauto. }
  rewrite Hv. split; [reflexivity|].
  unfold conforms_JsonRpcResponse. rewrite Htag.
  destruct Hodd as [[n Hn]|(e & He & Hc & Hm)].
  - rewrite Hn. reflexivity.
  - rewrite He. cbn [is_JsonRpcError]. rewrite Hc. apply andb_false_r.
Qed.

End Dispatch_statements.

(** ** Construction *)

Lemma constructor_inr g config c :
  constructor g config = inr c ->
  exists b k f,
    OdooApiClientConfig.baseUrl config = Some b /\ b <> EmptyString
    /\ OdooApiClientConfig.apiKey config = Some k /\ k <> EmptyString
    /\ (OdooApiClientConfig.fetch config = Some f
        \/ (OdooApiClientConfig.fetch config = None /\ g = Some f))
    /\ c = {| baseUrl := replace_trailing_slash b; apiKey := k;
              fetchFn := f |}.
Proof.
  unfold constructor.
  destruct config as [[[|x b]|] [[|y k]|] fo]; cbn; try discriminate.
  destruct fo as [f|]; [|destruct g as [f|]; [|discriminate]];
    intros [= <-]; exists (String x b), (String y k), f; eauto 10.
Qed.

Lemma two_slashes_stripped (p : string) :
  ends_with_slash (replace_trailing_slash (p +:+ "//")) = true.
Proof.
  change "//" with ("/" +:+ "/"). rewrite <- string_app_assoc.
  rewrite replace_trailing_slash_app. apply ends_with_slash_app.
Qed.

Lemma stripped_root_ok (b : string) :
  b <> EmptyString -> b <> "/" -> (forall p, b <> p +:+ "//") ->
  replace_trailing_slash b <> EmptyString
  /\ ends_with_slash (replace_trailing_slash b) = false.
Proof.
  intros Hne Hone Htwo.
  destruct (ends_with_slash b) eqn:E.
  - destruct (ends_with_slash_split b E) as [p ->].
    rewrite replace_trailing_slash_app. split.
    + intros ->. now apply Hone.
    + destruct (ends_with_slash p) eqn:E'; [|reflexivity].
      destruct (ends_with_slash_split p E') as [q ->].
      destruct (Htwo q). now rewrite string_app_assoc.
  - rewrite (replace_trailing_slash_id b E). now split.
Qed.

(** C6.  Construction, by the constructor and by the factory alike, fails
    with an error whenever the endpoint root or the credential is missing or
    empty, and whenever the configuration supplies no transport and the
    environment has none. *)
Theorem C6_construction_fails g config :
  OdooApiClientConfig.baseUrl config = None
  \/ OdooApiClientConfig.baseUrl config = Some EmptyString
  \/ OdooApiClientConfig.apiKey config = None
  \/ OdooApiClientConfig.apiKey config = Some EmptyString
  \/ (OdooApiClientConfig.fetch config = None /\ g = None) ->
  exists m,
    constructor g config = inl (Error m)
    /\ createOdooProxyClient g config = inl (Error m).
Proof.
  unfold createOdooProxyClient, constructor.
  destruct config as [[[|x b]|] [[|y k]|] fo]; cbn;
    intros [H|[H|[H|[H|[H1 H2]]]]]; subst; try discriminate; eauto.
Qed.

(** C7.  With a non-empty endpoint root, a non-empty credential and a
    transport at hand (supplied, or else ambient), construction succeeds,
    and the stored endpoint root is the configured one less one trailing
    slash when it ends with a slash, and the configured one itself when it
    does not. *)
Theorem C7_construction_normalizes g config b k f :
  OdooApiClientConfig.baseUrl config = Some b -> b <> EmptyString ->
  OdooApiClientConfig.apiKey config = Some k -> k <> EmptyString ->
  OdooApiClientConfig.fetch config = Some f
  \/ (OdooApiClientConfig.fetch config = None /\ g = Some f) ->
  exists c,
    constructor g config = inr c
    /\ createOdooProxyClient g config = inr c
    /\ (forall p, b = p +:+ "/" -> baseUrl c = p)
    /\ ((forall p, b <> p +:+ "/") -> baseUrl c = b)
    /\ apiKey c = k
    /\ fetchFn c = f.
Proof.
  intros Hb Hbne Hk Hkne Hf.
  exists {| baseUrl := replace_trailing_slash b; apiKey := k; fetchFn := f |}.
  assert (Hc : constructor g config
               = inr {| baseUrl := replace_trailing_slash b; apiKey := k;
                        fetchFn := f |}).
  { unfold constructor. rewrite Hb, Hk.
    destruct b as [|x b]; [congruence|]. destruct k as [|y k]; [congruence|].
    cbn [falsy falsy_string orb].
    destruct Hf as [->|[-> ->]]; reflexivity. }
  split; [exact Hc|]. split; [exact Hc|]. cbn [baseUrl apiKey fetchFn].
  split; [|split; [|split; reflexivity]].
  - intros p ->. apply replace_trailing_slash_app.
  - intros Hno. apply replace_trailing_slash_id. now apply no_slash_suffix.
Qed.

Section Lifetime.

Variable JSON_stringify : OdooProxyRequest -> js_thrown + option string.
Variable JSON_parse : string -> string + json.

(** C8, as amended.  After a successful construction, and after any
    sequence of dispatch calls, the client is the one the constructor
    built: its credential is non-empty and its endpoint root is the
    configured one less one trailing slash.  When the configured root is
    not a lone slash and does not end with two slashes, that stored root
    is non-empty and has no trailing slash. *)
Theorem C8_settings_kept g config c b requests w :
  constructor g config = inr c ->
  OdooApiClientConfig.baseUrl config = Some b ->
  this w = c ->
  this (lifetime (forwardToOdoo JSON_stringify JSON_parse) requests w) = c
  /\ apiKey c <> EmptyString
  /\ baseUrl c = replace_trailing_slash b
  /\ (b <> "/" -> (forall p, b <> p +:+ "//") -> settings_ok c).
Proof.
  intros Hc Hb Hw.
  rewrite lifetime_this, Hw. split; [reflexivity|].
  destruct (constructor_inr _ _ _ Hc)
    as (b' & k & f & Hb' & Hbne & Hk & Hkne & _ & ->).
  assert (b' = b) as -> by congruence.
  cbn [baseUrl apiKey]. split; [exact Hkne|]. split; [reflexivity|].
  intros Hone Htwo.
  destruct (stripped_root_ok b Hbne Hone Htwo) as [H1 H2].
  unfold settings_ok. cbn [baseUrl apiKey]. auto.
Qed.

End Lifetime.

(** The excerpt of the body put in the diagnostics has at most 200
    characters. *)
Lemma substring_length_le (n : nat) (s : string) :
  (String.length (String.substring 0 n s) <= n)%nat.
Proof.
  revert s. induction n as [|n IH]; intros [|c s]; cbn; try lia.
  specialize (IH s). lia.
Qed.


(** ** Where the handlers miss a case *)

(** C2.  A transport that rejects with [undefined] makes the call throw a
    [TypeError], raised by the handler itself when it reads the message of
    the caught value; no transport error is produced.  This holds for
    every parser and every serializer that prints the request. *)
Theorem C2_nullish_rejection_escapes
    (JSON_stringify : OdooProxyRequest -> js_thrown + option string)
    (JSON_parse : string -> string + json) (payload : option string) :
  JSON_stringify sample_request = inr payload ->
  fst (forwardToOdoo JSON_stringify JSON_parse sample_request
         (fresh (sample_client (reject_with js_undefined))))
  = Thrown (TypeError (nullish_read_message js_undefined)).
Proof.
  intros Hj.
  now rewrite (path_fetch_fails _ _ _ _ payload js_undefined Hj).
Qed.

(** C9.  Under status 200, a body read that rejects with [undefined] makes
    the call throw a [TypeError], raised by the handler itself when it reads
    the message of the caught value; no format error is produced. *)
Theorem C9_nullish_read_failure_escapes
    (JSON_stringify : OdooProxyRequest -> js_thrown + option string)
    (JSON_parse : string -> string + json) (payload : option string) :
  JSON_stringify sample_request = inr payload ->
  fst (forwardToOdoo JSON_stringify JSON_parse sample_request
         (fresh (sample_client
            (respond_with {| status := 200; statusText := "OK";
                             text := inl js_undefined |}))))
  = Thrown (TypeError (nullish_read_message js_undefined)).
Proof.
  intros Hj.
  rewrite (path_text_fails _ _ _ _ payload
             {| status := 200; statusText := "OK"; text := inl js_undefined |}
             js_undefined Hj); [reflexivity|reflexivity| |reflexivity].
  apply (bool_decide_unpack _). vm_compute. exact I.
Qed.

Lemma C2_witness :
  fst (forwardToOdoo id_stringify Reader.parse sample_request
         (fresh (sample_client (reject_with js_undefined))))
  = Thrown (TypeError (nullish_read_message js_undefined)).
Proof.
  apply (C2_nullish_rejection_escapes id_stringify Reader.parse
           sample_payload).
  reflexivity.
Defined.

Lemma C9_witness :
  fst (forwardToOdoo id_stringify Reader.parse sample_request
         (fresh (sample_client
            (respond_with {| status := 200; statusText := "OK";
                             text := inl js_undefined |}))))
  = Thrown (TypeError (nullish_read_message js_undefined)).
Proof.
  apply (C9_nullish_read_failure_escapes id_stringify Reader.parse
           sample_payload).
  reflexivity.
Defined.

(** ** Runs on concrete inputs *)

Ltac expected_status := apply (bool_decide_unpack _); vm_compute; exact I.

Lemma C1_witness :
  fst (forwardToOdoo id_stringify Reader.parse sample_request
         (fresh (sample_client
            (respond_with (response_of 400 "Bad Request" body_error)))))
  = Returned envelope_error.
Proof.
  apply (C1_valid_envelope_returned id_stringify Reader.parse sample_request
           _ sample_payload (response_of 400 "Bad Request" body_error)
           body_error envelope_error).
  - intros v H. vm_compute in H. discriminate.
  - reflexivity.
  - reflexivity.
  - expected_status.
  - reflexivity.
  - vm_compute. reflexivity.
  - exists (<["jsonrpc" := JStr "2.0"]>
            (<["id" := JStr "x"]> (<["error" := error_object]> ∅))).
    split; [reflexivity|].
    split; [vm_compute; reflexivity | eexists; vm_compute; reflexivity].
Defined.

Lemma C3_witness :
  ((exists m,
      fst (forwardToOdoo id_stringify Reader.parse sample_request
             (fresh (sample_client
                (respond_with (response_of 200 "OK" body_untagged)))))
      = Thrown (OdooProxyApiFormatError m))
   <-> invalid_envelope value_untagged).
Proof.
  apply (C3_format_error_iff_invalid id_stringify Reader.parse sample_request
           (fresh (sample_client
              (respond_with (response_of 200 "OK" body_untagged))))
           sample_payload
           (response_of 200 "OK" body_untagged) body_untagged
           value_untagged).
  - reflexivity.
  - reflexivity.
  - expected_status.
  - reflexivity.
  - vm_compute. discriminate.
  - vm_compute. reflexivity.
Defined.

Lemma C4_witness :
  fst (forwardToOdoo id_stringify Reader.parse sample_request
         (fresh (sample_client
            (respond_with (response_of 200 "OK" EmptyString)))))
  = Thrown (OdooProxyApiFormatError
      "Failed to parse JSON response from Odoo Proxy API: Received empty response body").
Proof.
  apply (C4_empty_or_unparsable_body id_stringify Reader.parse
           sample_request
           (fresh (sample_client
              (respond_with (response_of 200 "OK" EmptyString))))
           sample_payload
           (response_of 200 "OK" EmptyString)).
  - reflexivity.
  - reflexivity.
  - expected_status.
  - reflexivity.
Defined.

Lemma C6_witness :
  exists m,
    constructor None
      {| OdooApiClientConfig.baseUrl := Some "http://h";
         OdooApiClientConfig.apiKey := Some EmptyString;
         OdooApiClientConfig.fetch := None |}
    = inl (Error m)
    /\ createOdooProxyClient None
         {| OdooApiClientConfig.baseUrl := Some "http://h";
            OdooApiClientConfig.apiKey := Some EmptyString;
            OdooApiClientConfig.fetch := None |}
       = inl (Error m).
Proof.
  apply (C6_construction_fails None
           {| OdooApiClientConfig.baseUrl := Some "http://h";
              OdooApiClientConfig.apiKey := Some EmptyString;
              OdooApiClientConfig.fetch := None |}).
  right; right; right; left. reflexivity.
Defined.

Lemma C7_witness :
  exists c,
    constructor None (sample_config "http://h/" (reject_with js_undefined))
    = inr c
    /\ createOdooProxyClient None
         (sample_config "http://h/" (reject_with js_undefined)) = inr c
    /\ (forall p, "http://h/" = p +:+ "/" -> baseUrl c = p)
    /\ ((forall p, "http://h/" <> p +:+ "/") -> baseUrl c = "http://h/")
    /\ apiKey c = "secret"
    /\ fetchFn c = reject_with js_undefined.
Proof.
  apply (C7_construction_normalizes None
           (sample_config "http://h/" (reject_with js_undefined))
           "http://h/" "secret" (reject_with js_undefined)).
  - reflexivity.
  - discriminate.
  - reflexivity.
  - discriminate.
  - left. reflexivity.
Defined.

Example constructor_strips_one_slash :
  constructor None (sample_config "http://h/" (reject_with js_undefined))
  = inr (sample_client (reject_with js_undefined)).
Proof. reflexivity. Qed.

Example constructor_keeps_second_slash :
  constructor None (sample_config "http://h//" (reject_with js_undefined))
  = inr {| baseUrl := "http://h/"; apiKey := "secret";
           fetchFn := reject_with js_undefined |}.
Proof. reflexivity. Qed.

(** C8, as stated, fails: from the endpoint root made of a single slash the
    constructor succeeds and stores the empty string. *)
Lemma C8_counterexample :
  exists c,
    constructor None (slash_config (reject_with js_undefined)) = inr c
    /\ baseUrl c = EmptyString
    /\ ~ settings_ok c.
Proof.
  eexists. split; [reflexivity|]. split; [reflexivity|].
  intros [H _]. now apply H.
Qed.

Lemma C8_witness :
  this (lifetime (forwardToOdoo id_stringify Reader.parse)
          [sample_request; sample_request]
          (fresh (sample_client
             (respond_with (response_of 200 "OK" body_result)))))
  = sample_client (respond_with (response_of 200 "OK" body_result))
  /\ settings_ok
       (sample_client (respond_with (response_of 200 "OK" body_result))).
Proof.
  destruct (C8_settings_kept id_stringify Reader.parse None
              (sample_config "http://h/"
                 (respond_with (response_of 200 "OK" body_result)))
              (sample_client
                 (respond_with (response_of 200 "OK" body_result)))
              "http://h/" [sample_request; sample_request]
              (fresh (sample_client
                 (respond_with (response_of 200 "OK" body_result))))
              eq_refl eq_refl eq_refl)
    as (Hthis & _ & _ & Hok).
  split; [exact Hthis|]. apply Hok.
  - discriminate.
  - intros p H.
    apply (f_equal (fun s => ends_with_slash (replace_trailing_slash s))) in H.
    rewrite two_slashes_stripped in H. vm_compute in H. discriminate.
Defined.

Lemma C10_witness :
  fst (forwardToOdoo id_stringify Reader.parse sample_request
         (fresh (sample_client
            (respond_with (response_of 200 "OK" body_numeric_id)))))
  = Returned envelope_numeric_id
  /\ conforms_JsonRpcResponse envelope_numeric_id = false.
Proof.
  apply (C10_no_type_check id_stringify Reader.parse sample_request
           (fresh (sample_client
              (respond_with (response_of 200 "OK" body_numeric_id))))
           sample_payload
           (response_of 200 "OK" body_numeric_id) body_numeric_id).
  - reflexivity.
  - reflexivity.
  - expected_status.
  - reflexivity.
  - vm_compute. discriminate.
  - vm_compute. reflexivity.
  - vm_compute. reflexivity.
  - eexists. vm_compute. reflexivity.
  - left. exists (number_of_Z 7). vm_compute. reflexivity.
Defined.


(** C5, as stated, fails: on a request that holds a BigInt the serializer
    throws inside the first try block, the handler reports a network error,
    and the transport is not called. *)
Lemma C5_counterexample :
  fst (forwardToOdoo id_stringify Reader.parse bigint_request
         (world_with (response_of 200 "OK" body_result)))
  = Thrown (OdooProxyApiHttpError
      "Network error calling Odoo Proxy API: Do not know how to serialize a BigInt"
      None None None)
  /\ List.filter is_fetch
       (trace (snd (forwardToOdoo id_stringify Reader.parse bigint_request
                      (world_with (response_of 200 "OK" body_result)))))
     = [].
Proof. split; vm_compute; reflexivity. Qed.

Lemma C5_witness :
  exists tail,
    trace (snd (forwardToOdoo id_stringify Reader.parse sample_request
                  (world_with (response_of 200 "OK" body_result))))
    = [] ++ EvFetch ("http://h" +:+ "/api/odoo")
              {| method := "POST";
                 headers := [ ("Content-Type", "application/json");
                              ("Accept", "application/json");
                              ("apikey", "secret") ];
                 body := sample_payload |}
            :: tail
    /\ List.filter is_fetch tail = [].
Proof.
  destruct (C5_exactly_one_post id_stringify Reader.parse sample_request
              (world_with (response_of 200 "OK" body_result)))
    as [H _].
  destruct (H sample_payload eq_refl) as (tail & Ht & Hf & _).
  exists tail. split; [exact Ht | exact Hf].
Defined.

(** ** Every path of a call, and what each outcome tells the caller *)

Lemma substring_0_all (n : nat) (s : string) :
  (String.length s <= n)%nat -> String.substring 0 n s = s.
Proof.
  revert s. induction n as [|n IH]; intros [|c s]; cbn; intros H;
    try reflexivity; try lia.
  f_equal. apply IH. lia.
Qed.

Lemma substring_0_length (n : nat) (s : string) :
  (n <= String.length s)%nat -> String.length (String.substring 0 n s) = n.
Proof.
  revert s. induction n as [|n IH]; intros [|c s]; cbn; intros H;
    try reflexivity; try lia.
  f_equal. apply IH. lia.
Qed.

Lemma substring_0_prefix (n : nat) (s : string) :
  exists rest, s = String.substring 0 n s +:+ rest.
Proof.
  revert s. induction n as [|n IH]; intros [|c s]; cbn.
  - now exists EmptyString.
  - now exists (String c s).
  - now exists EmptyString.
  - destruct (IH s) as [rest Hr]. exists rest.
    change (String c s = String c (String.substring 0 n s +:+ rest)).
    now rewrite <- Hr.
Qed.

Section Outcomes.

Variable JSON_stringify : OdooProxyRequest -> js_thrown + option string.
Variable JSON_parse : string -> string + json.

Abbreviation dispatch := (forwardToOdoo JSON_stringify JSON_parse).
Abbreviation answer w payload :=
  (fetchFn (this w) (target_url (this w)) (post_init (this w) payload)).

(** X1.  Whatever a call returns is an envelope that passed the checks: the
    request was serialized, the transport answered it with a response whose
    status is one of the six expected ones, the body of that response was a
    non-empty text, the returned value is what the parser made of that
    text, and it is an object whose jsonrpc is 2.0 and which has an id
    key. *)
Theorem X1_returned_is_parsed_valid_envelope request w v :
  fst (dispatch request w) = Returned v ->
  exists payload r t,
    JSON_stringify request = inr payload
    /\ answer w payload = inr r
    /\ status r ∈ expectedStatuses
    /\ text r = inr t
    /\ t <> EmptyString
    /\ JSON_parse t = inr v
    /\ valid_envelope v.
Proof.
  intros Hret.
  destruct (dispatch_cases JSON_stringify JSON_parse request w)
    as [(e & Hj & E)|(payload & Hj & [(e & H & E)|(r & H &
         [(Hs & E)|(Hs & [(e & Ht & E)|[(Ht & E)|(t & Ht & Hne &
           [(m & Hp & E)|(v' & Hp & E)])]])])])];
    rewrite E in Hret; cbn [fst] in Hret; try discriminate.
  destruct (rejected v') eqn:Hr; [discriminate|].
  injection Hret as <-. exists payload, r, t.
  repeat split; try assumption. now apply rejected_false_iff.
Qed.

(** X2.  A transport error thrown by a call has one of three origins.  It
    was built by the first handler, for what the serializer threw or the
    transport rejected with: then status, statusText and response are all
    undefined and the message starts with the network-error prefix.  Or it
    was built for a response that came back: then all three are set from
    that response and its status is not one of the six expected ones.  Or
    it is not of the call's making: a caught value threw it when a handler
    read its message. *)
Theorem X2_transport_error_shape request w m s st resp :
  fst (dispatch request w) = Thrown (OdooProxyApiHttpError m s st resp) ->
  (exists e detail,
      (JSON_stringify request = inl e
       \/ exists payload,
            JSON_stringify request = inr payload
            /\ answer w payload = inl e)
      /\ s = None /\ st = None /\ resp = None
      /\ m = "Network error calling Odoo Proxy API: " +:+ detail)
  \/ (exists payload r,
        JSON_stringify request = inr payload
        /\ answer w payload = inr r
        /\ (status r ∉ expectedStatuses)
        /\ s = Some (status r) /\ st = Some (statusText r)
        /\ resp = Some r)
  \/ caught JSON_stringify w request
       (js_throwing (OdooProxyApiHttpError m s st resp)).
Proof.
  intros Hthrown. unfold caught.
  destruct (dispatch_cases JSON_stringify JSON_parse request w)
    as [(e & Hj & E)|(payload & Hj & [(e & H & E)|(r & H &
         [(Hs & E)|(Hs & [(e & Ht & E)|[(Ht & E)|(t & Ht & Hne &
           [(m' & Hp & E)|(v' & Hp & E)])]])])])];
    rewrite E in Hthrown; cbn [fst] in Hthrown; try discriminate.
  - destruct e as [| |m'|x]; cbn in Hthrown; try discriminate.
    + injection Hthrown as <- <- <- <-. left. eauto 10.
    + injection Hthrown as ->. right; right. now left.
  - destruct e as [| |m'|x]; cbn in Hthrown; try discriminate.
    + injection Hthrown as <- <- <- <-. left. eauto 12.
    + injection Hthrown as ->. right; right. right. eauto 10.
  - injection Hthrown as <- <- <- <-. right; left. eauto 10.
  - destruct e as [| |m'|x]; cbn in Hthrown; try discriminate.
    injection Hthrown as ->. right; right. right. eauto 10.
  - destruct (rejected v'); discriminate.
Qed.

(** X3.  A format error thrown by a call has one of two origins.  It was
    built by the call: then a response with one of the six expected
    statuses arrived, and the message is either the invalid-envelope
    message or the parse-failure prefix followed by a detail.  Or it is not
    of the call's making: a caught value threw it when a handler read its
    message. *)
Theorem X3_format_error_shape request w m :
  fst (dispatch request w) = Thrown (OdooProxyApiFormatError m) ->
  (exists payload r,
      JSON_stringify request = inr payload
      /\ answer w payload = inr r
      /\ status r ∈ expectedStatuses
      /\ (m = "Invalid JSON-RPC 2.0 response format received from Odoo Proxy API."
          \/ exists detail,
               m = "Failed to parse JSON response from Odoo Proxy API: "
                     +:+ detail))
  \/ caught JSON_stringify w request
       (js_throwing (OdooProxyApiFormatError m)).
Proof.
  intros Hthrown. unfold caught.
  destruct (dispatch_cases JSON_stringify JSON_parse request w)
    as [(e & Hj & E)|(payload & Hj & [(e & H & E)|(r & H &
         [(Hs & E)|(Hs & [(e & Ht & E)|[(Ht & E)|(t & Ht & Hne &
           [(m' & Hp & E)|(v' & Hp & E)])]])])])];
    rewrite E in Hthrown; cbn [fst] in Hthrown; try discriminate.
  - destruct e as [| |m'|x]; cbn in Hthrown; try discriminate.
    injection Hthrown as ->. right. now left.
  - destruct e as [| |m'|x]; cbn in Hthrown; try discriminate.
    injection Hthrown as ->. right. right. eauto 10.
  - destruct e as [| |m'|x]; cbn in Hthrown; try discriminate.
    + injection Hthrown as <-. left. eauto 10.
    + injection Hthrown as ->. right. right. eauto 10.
  - injection Hthrown as <-. left. eauto 10.
  - injection Hthrown as <-. left. eauto 10.
  - destruct (rejected v'); [|discriminate].
    injection Hthrown as <-. left. eauto 10.
Qed.


(** X5.  A call throws a TypeError in two situations only: a handler
    caught undefined or null (from the serializer, from the transport, or
    from the body read under an expected status) and threw when it read the
    message; or a caught value threw a TypeError when a handler read its
    message, as a message that is a symbol does. *)
Theorem X5_type_error_origins request w :
  (exists m, fst (dispatch request w) = Thrown (TypeError m))
  <-> ((exists e,
          caught JSON_stringify w request e /\ is_nullish e = true)
       \/ exists m,
            caught JSON_stringify w request (js_throwing (TypeError m))).
Proof.
  unfold caught. split.
  - intros [m0 Hthrown].
    destruct (dispatch_cases JSON_stringify JSON_parse request w)
      as [(e & Hj & E)|(payload & Hj & [(e & H & E)|(r & H &
           [(Hs & E)|(Hs & [(e & Ht & E)|[(Ht & E)|(t & Ht & Hne &
             [(m' & Hp & E)|(v' & Hp & E)])]])])])];
      rewrite E in Hthrown; cbn [fst] in Hthrown; try discriminate.
    + destruct e as [| |m'|x]; cbn in Hthrown; try discriminate.
      * left. exists js_undefined. split; [now left|reflexivity].
      * left. exists js_null. split; [now left|reflexivity].
      * injection Hthrown as ->. right. exists m0. now left.
    + destruct e as [| |m'|x]; cbn in Hthrown; try discriminate.
      * left. exists js_undefined. split; [right; eauto 10|reflexivity].
      * left. exists js_null. split; [right; eauto 10|reflexivity].
      * injection Hthrown as ->. right. exists m0. right. eauto 10.
    + destruct e as [| |m'|x]; cbn in Hthrown; try discriminate.
      * left. exists js_undefined. split; [right; eauto 10|reflexivity].
      * left. exists js_null. split; [right; eauto 10|reflexivity].
      * injection Hthrown as ->. right. exists m0. right. eauto 10.
    + destruct (rejected v'); discriminate.
  - assert (Hrun : forall e,
              (JSON_stringify request = inl e
               \/ exists payload,
                    JSON_stringify request = inr payload
                    /\ (answer w payload = inl e
                        \/ exists r,
                             answer w payload = inr r
                             /\ status r ∈ expectedStatuses
                             /\ text r = inl e)) ->
              fst (dispatch request w) = Thrown (network_failure e)
              \/ fst (dispatch request w) = Thrown (read_failure e)).
    { intros e [Hj|(payload & Hj & [H|(r & H & Hs & Ht)])].
      - left. now rewrite (path_stringify_throws _ _ _ _ _ Hj).
      - left. now rewrite (path_fetch_fails _ _ _ _ _ _ Hj H).
      - right. now rewrite (path_text_fails _ _ _ _ _ _ _ Hj H Hs Ht). }
    intros [(e & Hc & Hn)|(m & Hc)].
    + destruct (Hrun e Hc) as [-> | ->];
        destruct e; try discriminate; cbn; eauto.
    + destruct (Hrun _ Hc) as [-> | ->]; cbn; eauto.
Qed.

End Outcomes.

Section Responses.

Variable JSON_stringify : OdooProxyRequest -> js_thrown + option string.
Variable JSON_parse : string -> string + json.

Abbreviation dispatch := (forwardToOdoo JSON_stringify JSON_parse).
Abbreviation answer w payload :=
  (fetchFn (this w) (target_url (this w)) (post_init (this w) payload)).

(** X6.  Under a status outside the six expected ones, a body that cannot
    be read, whatever the value the read rejects with (undefined included,
    and values whose message cannot be read), is treated like an empty
    body: the read failure is swallowed and the call throws the transport
    error whose message is the bare status line, with the response
    attached, after one transport call and one body read and no parse. *)
Theorem X6_unreadable_body_is_swallowed request w payload r :
  JSON_stringify request = inr payload ->
  answer w payload = inr r ->
  status r ∉ expectedStatuses ->
  text r = inr EmptyString \/ (exists e, text r = inl e) ->
  fst (dispatch request w)
  = Thrown (OdooProxyApiHttpError
              ("Unexpected HTTP response from Odoo Proxy API. "
                 +:+ "Status: " +:+ pretty (status r) +:+ " "
                 +:+ statusText r)
              (Some (status r)) (Some (statusText r)) (Some r))
  /\ trace (snd (dispatch request w))
     = trace w ++ [post_event (this w) payload; EvText r].
Proof.
  intros Hj H Hs Ht. rewrite (path_unexpected_status _ _ _ _ _ _ Hj H Hs).
  split; [|reflexivity]. cbn [fst]. unfold diagnostics.
  destruct Ht as [->|[e ->]]; cbn [falsy_string];
    now rewrite string_app_empty_r.
Qed.

(** X7.  Under a status outside the six expected ones, a non-empty body
    that can be read is quoted in the message after the status line: in
    full and with no ellipsis when it has at most 200 characters, and cut to
    its first 200 characters followed by three dots when it is longer. *)
Theorem X7_body_excerpt_bounds request w payload r t :
  JSON_stringify request = inr payload ->
  answer w payload = inr r ->
  status r ∉ expectedStatuses ->
  text r = inr t ->
  t <> EmptyString ->
  exists excerpt ellipsis,
    fst (dispatch request w)
    = Thrown (OdooProxyApiHttpError
                ("Unexpected HTTP response from Odoo Proxy API. "
                   +:+ "Status: " +:+ pretty (status r) +:+ " "
                   +:+ statusText r +:+ LF +:+ "Response Body: "
                   +:+ excerpt +:+ ellipsis)
                (Some (status r)) (Some (statusText r)) (Some r))
    /\ (exists rest, t = excerpt +:+ rest)
    /\ ((String.length t <= 200)%nat ->
        excerpt = t /\ ellipsis = EmptyString)
    /\ ((200 < String.length t)%nat ->
        String.length excerpt = 200%nat /\ ellipsis = "...").
Proof.
  intros Hj H Hs Ht Hne.
  rewrite (path_unexpected_status _ _ _ _ _ _ Hj H Hs).
  exists (String.substring 0 200 t),
         (if (200 <? String.length t)%nat then "..." else EmptyString).
  split.
  - cbn [fst]. unfold diagnostics. rewrite Ht.
    destruct t as [|c t]; [congruence|]. reflexivity.
  - split; [apply substring_0_prefix|]. split; intros Hlen.
    + split; [now apply substring_0_all|].
      destruct (Nat.ltb_spec 200 (String.length t)); [lia|reflexivity].
    + split; [apply substring_0_length; lia|].
      destruct (Nat.ltb_spec 200 (String.length t)); [reflexivity|lia].
Qed.

(** X8.  Among the six expected statuses the status plays no part: two
    responses with expected statuses and the same body outcome give the
    same result, whatever the clients and the requests, so an envelope
    sent with status 500 is returned exactly as one sent with status 200. *)
Theorem X8_result_depends_on_body_only
    request1 w1 payload1 r1 request2 w2 payload2 r2 :
  JSON_stringify request1 = inr payload1 ->
  JSON_stringify request2 = inr payload2 ->
  answer w1 payload1 = inr r1 ->
  answer w2 payload2 = inr r2 ->
  status r1 ∈ expectedStatuses ->
  status r2 ∈ expectedStatuses ->
  text r1 = text r2 ->
  fst (dispatch request1 w1) = fst (dispatch request2 w2).
Proof.
  intros Hj1 Hj2 H1 H2 Hs1 Hs2 Ht.
  destruct (text r2) as [e|t] eqn:Ht2.
  - rewrite (path_text_fails _ _ _ _ _ _ _ Hj1 H1 Hs1 Ht).
    now rewrite (path_text_fails _ _ _ _ _ _ _ Hj2 H2 Hs2 Ht2).
  - destruct (decide (t = EmptyString)) as [->|Hne].
    { rewrite (path_empty_body _ _ _ _ _ _ Hj1 H1 Hs1 Ht).
      now rewrite (path_empty_body _ _ _ _ _ _ Hj2 H2 Hs2 Ht2). }
    destruct (JSON_parse t) as [m|v] eqn:Hp.
    { rewrite (path_parse_fails _ _ _ _ _ _ _ _ Hj1 H1 Hs1 Ht Hne Hp).
      now rewrite (path_parse_fails _ _ _ _ _ _ _ _ Hj2 H2 Hs2 Ht2 Hne Hp). }
    rewrite (path_parsed _ _ _ _ _ _ _ _ Hj1 H1 Hs1 Ht Hne Hp).
    now rewrite (path_parsed _ _ _ _ _ _ _ _ Hj2 H2 Hs2 Ht2 Hne Hp).
Qed.

(** X9.  The platform operations of a call, in order.  When the serializer
    throws there is none.  When the transport rejects, the transport call
    is the only one.  When it answers, the body of the response is read
    exactly once, right after the transport call, and the parser is then
    run at most once: it is run exactly when the status is expected and the
    read gave a non-empty text, and on that text. *)
Theorem X9_platform_operations request w :
  (forall e,
     JSON_stringify request = inl e ->
     trace (snd (dispatch request w)) = trace w)
  /\ (forall payload,
        JSON_stringify request = inr payload ->
        (forall e,
           answer w payload = inl e ->
           trace (snd (dispatch request w))
           = trace w ++ [post_event (this w) payload])
        /\ (forall r,
              answer w payload = inr r ->
              exists parses,
                trace (snd (dispatch request w))
                = trace w ++ post_event (this w) payload
                             :: EvText r :: parses
                /\ ((parses = []
                     /\ ~ (status r ∈ expectedStatuses
                           /\ exists t, text r = inr t /\ t <> EmptyString))
                    \/ (exists t,
                          parses = [EvParse t]
                          /\ status r ∈ expectedStatuses
                          /\ text r = inr t /\ t <> EmptyString)))).
Proof.
  split.
  - intros e Hj. now rewrite (path_stringify_throws _ _ _ _ _ Hj).
  - intros payload Hj. split.
    + intros e H. now rewrite (path_fetch_fails _ _ _ _ _ _ Hj H).
    + intros r H.
      destruct (decide (status r ∈ expectedStatuses)) as [Hs|Hs].
      * destruct (text r) as [e|t] eqn:Ht.
        { rewrite (path_text_fails _ _ _ _ _ _ _ Hj H Hs Ht). exists [].
          split; [reflexivity|]. left. split; [reflexivity|].
          intros (_ & t & Ht' & _). congruence. }
        destruct (decide (t = EmptyString)) as [->|Hne].
        { rewrite (path_empty_body _ _ _ _ _ _ Hj H Hs Ht). exists [].
          split; [reflexivity|]. left. split; [reflexivity|].
          intros (_ & t & Ht' & Hne). congruence. }
        exists [EvParse t]. split; [|right; eauto].
        destruct (JSON_parse t) as [m|v] eqn:Hp.
        { now rewrite (path_parse_fails _ _ _ _ _ _ _ _ Hj H Hs Ht Hne Hp). }
        now rewrite (path_parsed _ _ _ _ _ _ _ _ Hj H Hs Ht Hne Hp).
      * rewrite (path_unexpected_status _ _ _ _ _ _ Hj H Hs). exists [].
        split; [reflexivity|]. left. split; [reflexivity|]. tauto.
Qed.

(** X10.  Under an expected status, a body that is JSON but not an object
    (null, an array, a string, a number, a boolean), or an object whose
    jsonrpc member is a number rather than the string 2.0, is refused with
    the invalid-envelope message, not with the parse-failure one. *)
Theorem X10_non_object_body_refused request w payload r t v :
  JSON_stringify request = inr payload ->
  answer w payload = inr r ->
  status r ∈ expectedStatuses ->
  text r = inr t ->
  t <> EmptyString ->
  JSON_parse t = inr v ->
  (forall props, v <> JObj props)
  \/ (exists props x, v = JObj props /\ props !! "jsonrpc" = Some (JNum x)) ->
  fst (dispatch request w)
  = Thrown (OdooProxyApiFormatError
      "Invalid JSON-RPC 2.0 response format received from Odoo Proxy API.").
Proof.
  intros Hj H Hs Ht Hne Hp Hv.
  rewrite (path_parsed _ _ _ _ _ _ _ _ Hj H Hs Ht Hne Hp). cbn [fst].
  assert (Hr : rejected v = true).
  { apply rejected_true_iff. destruct Hv as [Hv|(props & x & -> & Hx)].
    - now left.
    - right; right; left. cbn. rewrite Hx. discriminate. }
  now rewrite Hr.
Qed.

(** X11.  Over the life of a client, the trace grows by the platform
    operations of each request in turn, each read off what the serializer,
    the stored transport and its response give for that request with the
    stored endpoint root and credential.  So the transport is called once
    for each request that the serializer prints, in the order of the
    requests, and never for a request on which the serializer throws. *)
Theorem X11_lifetime_operations requests w :
  trace (lifetime dispatch requests w)
  = trace w ++ List.flat_map (call_events JSON_stringify (this w)) requests
  /\ List.filter is_fetch
       (List.flat_map (call_events JSON_stringify (this w)) requests)
     = omap (fun request =>
               match JSON_stringify request with
               | inl _ => None
               | inr payload => Some (post_event (this w) payload)
               end)
         requests.
Proof.
  split.
  - revert w. induction requests as [|request rest IH]; intros w.
    + cbn. now rewrite app_nil_r.
    + cbn [lifetime List.flat_map]. rewrite IH.
      rewrite (dispatch_world JSON_stringify JSON_parse).
      cbn [after this trace]. now rewrite <- app_assoc.
  - induction requests as [|request rest IH]; [reflexivity|].
    cbn [List.flat_map omap list_omap]. rewrite List.filter_app, IH.
    unfold call_events at 1.
    destruct (JSON_stringify request) as [e|payload]; [reflexivity|].
    cbn [List.filter is_fetch post_event app]. f_equal.
    destruct (fetchFn (this w) (target_url (this w))
                (post_init (this w) payload)) as [e|r]; [reflexivity|].
    destruct (text r) as [e|t]; [reflexivity|].
    now destruct (_ && _).
Qed.

End Responses.

(** ** Construction, case by case, and the usage example *)

Lemma constructor_missing g config :
  settings_missing config ->
  constructor g config
  = inl (Error
      "OdooProxyApiClient requires baseUrl and apiKey in configuration.").
Proof.
  unfold constructor, settings_missing.
  destruct config as [[[|x b]|] [[|y k]|] fo]; cbn;
    intros [H|[H|[H|H]]]; try discriminate H; reflexivity.
Qed.

Lemma constructor_present g config :
  ~ settings_missing config ->
  exists b k,
    OdooApiClientConfig.baseUrl config = Some b
    /\ OdooApiClientConfig.apiKey config = Some k
    /\ constructor g config
       = match OdooApiClientConfig.fetch config, g with
         | Some f, _ | None, Some f =>
             inr {| baseUrl := replace_trailing_slash b; apiKey := k;
                    fetchFn := f |}
         | None, None => inl (Error
             "Fetch API is not available. Please provide a polyfill or ensure you are in a supported environment.")
         end.
Proof.
  unfold constructor, settings_missing.
  destruct config as [[[|x b]|] [[|y k]|] fo]; cbn; intros Hm;
    try (exfalso; apply Hm; tauto).
  exists (String x b), (String y k).
  destruct fo as [f|]; [|destruct g as [f|]]; auto.
Qed.

(** X13.  The three outcomes of construction.  It fails with the message
    about baseUrl and apiKey exactly when the endpoint root or the
    credential is missing or empty, whether or not a transport is at hand;
    it fails with the message about the Fetch API exactly when both are
    present and non-empty and neither the configuration nor the environment
    has a transport; and it succeeds exactly when both are present and
    non-empty and one of the two has a transport. *)
Theorem X13_constructor_outcomes g config :
  (constructor g config
   = inl (Error
       "OdooProxyApiClient requires baseUrl and apiKey in configuration.")
   <-> settings_missing config)
  /\ (constructor g config
      = inl (Error
          "Fetch API is not available. Please provide a polyfill or ensure you are in a supported environment.")
      <-> ~ settings_missing config
          /\ OdooApiClientConfig.fetch config = None /\ g = None)
  /\ ((exists c, constructor g config = inr c)
      <-> ~ settings_missing config
          /\ (is_Some (OdooApiClientConfig.fetch config) \/ is_Some g)).
Proof.
  assert (Hdec : settings_missing config \/ ~ settings_missing config).
  { unfold settings_missing.
    destruct config as [[[|x b]|] [[|y k]|] fo]; cbn; try tauto.
    right. intros [H|[H|[H|H]]]; discriminate H. }
  destruct Hdec as [Hm|Hm].
  - rewrite (constructor_missing g config Hm). split; [|split].
    + tauto.
    + split; [discriminate | tauto].
    + split; [intros [c H]; discriminate H | tauto].
  - destruct (constructor_present g config Hm) as (b & k & _ & _ & ->).
    destruct (OdooApiClientConfig.fetch config) as [f|], g as [f'|];
      (split; [|split]); split;
      try discriminate; try tauto; eauto;
      try (intros (_ & H & _); discriminate H);
      try (intros (_ & _ & H); discriminate H);
      try (intros [c H]; discriminate H).
    intros (_ & [[? H]|[? H]]); discriminate H.
Qed.

Lemma getApiClient_calls_kept ambient c :
  getApiClient_calls ambient (Some c) = Some c.
Proof. induction ambient as [|g rest IH]; [reflexivity | exact IH]. Qed.

(** X14.  The usage example builds its client at most once.  Over any run
    of calls starting from the empty variable, the variable ends holding
    the client built from the fixed configuration and the first ambient
    transport that was available, or stays empty when none ever was: the
    calls made before a transport is available fail and leave the variable
    empty, and once a client has been returned every later call returns
    that same client, whatever the environment has become. *)
Theorem X14_getApiClient_builds_once ambient :
  getApiClient_calls ambient None
  = (fun f => {| baseUrl := "https://theodx-api-gateway";
                 apiKey := "my_secret_key";
                 fetchFn := f |})
      <$> head (omap (fun g => g) ambient)
  /\ (forall g s c s',
        getApiClient g s = (inr c, s') ->
        s' = Some c /\ forall g', getApiClient g' s' = (inr c, s')).
Proof.
  split.
  - induction ambient as [|[f|] rest IH].
    + reflexivity.
    + cbn. apply getApiClient_calls_kept.
    + cbn. exact IH.
  - intros g [c0|] c s'; unfold getApiClient.
    + intros [= <- <-]. split; reflexivity.
    + destruct (createOdooProxyClient g getApiClient_config) as [e|c1];
        intros [= <- <-]. split; reflexivity.
Qed.

(** ** Further runs on concrete inputs *)

Lemma X1_witness : valid_envelope envelope_result.
Proof.
  destruct (X1_returned_is_parsed_valid_envelope id_stringify Reader.parse
              sample_request (world_with (response_of 200 "OK" body_result))
              envelope_result)
    as (payload & r & t & _ & _ & _ & _ & _ & _ & Hv).
  - vm_compute. reflexivity.
  - exact Hv.
Defined.

Lemma X2_witness :
  (exists e detail,
      (id_stringify sample_request = inl e
       \/ exists payload,
            id_stringify sample_request = inr payload
            /\ respond_with not_found
                 (target_url (this (world_with not_found)))
                 (post_init (this (world_with not_found)) payload)
               = inl e)
      /\ Some 404 = None /\ Some "Not Found" = None
      /\ Some not_found = None
      /\ "Unexpected HTTP response from Odoo Proxy API. Status: 404 Not Found"
           +:+ LF +:+ "Response Body: oops"
         = "Network error calling Odoo Proxy API: " +:+ detail)
  \/ (exists payload r,
        id_stringify sample_request = inr payload
        /\ respond_with not_found
             (target_url (this (world_with not_found)))
             (post_init (this (world_with not_found)) payload)
           = inr r
        /\ (status r ∉ expectedStatuses)
        /\ Some 404 = Some (status r)
        /\ Some "Not Found" = Some (statusText r)
        /\ Some not_found = Some r)
  \/ caught id_stringify (world_with not_found) sample_request
       (js_throwing
          (OdooProxyApiHttpError
             ("Unexpected HTTP response from Odoo Proxy API. Status: 404 Not Found"
                +:+ LF +:+ "Response Body: oops")
             (Some 404) (Some "Not Found") (Some not_found))).
Proof.
  apply (X2_transport_error_shape id_stringify Reader.parse sample_request
           (world_with not_found)).
  vm_compute. reflexivity.
Defined.

Lemma X3_witness :
  (exists payload r,
      id_stringify sample_request = inr payload
      /\ respond_with (response_of 200 "OK" "not json")
           (target_url
              (this (world_with (response_of 200 "OK" "not json"))))
           (post_init
              (this (world_with (response_of 200 "OK" "not json")))
              payload)
         = inr r
      /\ status r ∈ expectedStatuses
      /\ ("Failed to parse JSON response from Odoo Proxy API: Unexpected token in JSON"
          = "Invalid JSON-RPC 2.0 response format received from Odoo Proxy API."
          \/ exists detail,
               "Failed to parse JSON response from Odoo Proxy API: Unexpected token in JSON"
               = "Failed to parse JSON response from Odoo Proxy API: "
                   +:+ detail))
  \/ caught id_stringify (world_with (response_of 200 "OK" "not json"))
       sample_request
       (js_throwing
          (OdooProxyApiFormatError
             "Failed to parse JSON response from Odoo Proxy API: Unexpected token in JSON")).
Proof.
  apply (X3_format_error_shape id_stringify Reader.parse sample_request
           (world_with (response_of 200 "OK" "not json"))).
  vm_compute. reflexivity.
Defined.

Lemma X6_witness :
  fst (forwardToOdoo id_stringify Reader.parse sample_request
         (world_with (unreadable 503 "Service Unavailable")))
  = Thrown (OdooProxyApiHttpError
      "Unexpected HTTP response from Odoo Proxy API. Status: 503 Service Unavailable"
      (Some 503) (Some "Service Unavailable")
      (Some (unreadable 503 "Service Unavailable"))).
Proof.
  apply (X6_unreadable_body_is_swallowed id_stringify Reader.parse
           sample_request
           (world_with (unreadable 503 "Service Unavailable"))
           sample_payload
           (unreadable 503 "Service Unavailable")).
  - reflexivity.
  - reflexivity.
  - intros H. apply (bool_decide_pack _) in H. vm_compute in H. exact H.
  - right. exists js_undefined. reflexivity.
Defined.

Lemma X7_witness :
  exists excerpt ellipsis,
    fst (forwardToOdoo id_stringify Reader.parse sample_request
           (world_with (response_of 404 "Not Found" (repeat_char 250 "a"))))
    = Thrown (OdooProxyApiHttpError
                ("Unexpected HTTP response from Odoo Proxy API. "
                   +:+ "Status: " +:+ pretty 404 +:+ " "
                   +:+ "Not Found" +:+ LF +:+ "Response Body: "
                   +:+ excerpt +:+ ellipsis)
                (Some 404) (Some "Not Found")
                (Some (response_of 404 "Not Found" (repeat_char 250 "a"))))
    /\ (exists rest, repeat_char 250 "a" = excerpt +:+ rest)
    /\ ((String.length (repeat_char 250 "a") <= 200)%nat ->
        excerpt = repeat_char 250 "a" /\ ellipsis = EmptyString)
    /\ ((200 < String.length (repeat_char 250 "a"))%nat ->
        String.length excerpt = 200%nat /\ ellipsis = "...").
Proof.
  apply (X7_body_excerpt_bounds id_stringify Reader.parse sample_request
           (world_with (response_of 404 "Not Found" (repeat_char 250 "a")))
           sample_payload
           (response_of 404 "Not Found" (repeat_char 250 "a"))
           (repeat_char 250 "a")).
  - reflexivity.
  - reflexivity.
  - intros H. apply (bool_decide_pack _) in H. vm_compute in H. exact H.
  - reflexivity.
  - vm_compute. discriminate.
Defined.

Example long_body_is_cut :
  fst (forwardToOdoo id_stringify Reader.parse sample_request
         (world_with (response_of 404 "Not Found" (repeat_char 250 "a"))))
  = Thrown (OdooProxyApiHttpError
              ("Unexpected HTTP response from Odoo Proxy API. Status: 404 Not Found"
                 +:+ LF +:+ "Response Body: " +:+ repeat_char 200 "a"
                 +:+ "...")
              (Some 404) (Some "Not Found")
              (Some (response_of 404 "Not Found" (repeat_char 250 "a")))).
Proof. vm_compute. reflexivity. Qed.

Lemma X8_witness :
  fst (forwardToOdoo id_stringify Reader.parse sample_request
         (world_with (response_of 200 "OK" body_error)))
  = fst (forwardToOdoo id_stringify Reader.parse sample_request
           (world_with
              (response_of 500 "Internal Server Error" body_error))).
Proof.
  apply (X8_result_depends_on_body_only id_stringify Reader.parse
           sample_request (world_with (response_of 200 "OK" body_error))
           sample_payload
           (response_of 200 "OK" body_error)
           sample_request
           (world_with (response_of 500 "Internal Server Error" body_error))
           sample_payload
           (response_of 500 "Internal Server Error" body_error)).
  - reflexivity.
  - reflexivity.
  - reflexivity.
  - reflexivity.
  - expected_status.
  - expected_status.
  - reflexivity.
Defined.

Lemma X10_witness :
  fst (forwardToOdoo id_stringify Reader.parse sample_request
         (world_with (response_of 200 "OK" "null")))
  = Thrown (OdooProxyApiFormatError
      "Invalid JSON-RPC 2.0 response format received from Odoo Proxy API.").
Proof.
  apply (X10_non_object_body_refused id_stringify Reader.parse sample_request
           (world_with (response_of 200 "OK" "null"))
           sample_payload
           (response_of 200 "OK" "null") "null" JNull).
  - reflexivity.
  - reflexivity.
  - expected_status.
  - reflexivity.
  - discriminate.
  - vm_compute. reflexivity.
  - left. intros props. discriminate.
Defined.

(** A rejection value whose message is a symbol: printing it throws a
    TypeError, which goes out of the handler as it is. *)
Example symbol_message_escapes :
  fst (forwardToOdoo id_stringify Reader.parse sample_request
         (fresh (sample_client
            (reject_with
               (js_throwing
                  (TypeError "Cannot convert a Symbol value to a string"))))))
  = Thrown (TypeError "Cannot convert a Symbol value to a string").
Proof. reflexivity. Qed.

Example lifetime_skips_unserializable :
  List.filter is_fetch
    (trace (lifetime (forwardToOdoo id_stringify Reader.parse)
              [sample_request; bigint_request; sample_request]
              (world_with (response_of 200 "OK" body_result))))
  = [post_event (sample_client
                   (respond_with (response_of 200 "OK" body_result)))
       sample_payload;
     post_event (sample_client
                   (respond_with (response_of 200 "OK" body_result)))
       sample_payload].
Proof. vm_compute. reflexivity. Qed.

Example getApiClient_run (f1 f2 : fetch_fn) :
  getApiClient_calls [None; Some f1; None; Some f2] None
  = Some {| baseUrl := "https://theodx-api-gateway";
            apiKey := "my_secret_key"; fetchFn := f1 |}.
Proof. reflexivity. Qed.
